(** * git-credential-azure-cli: the credential helper of [main.go]

    A shallow embedding of the [get] operation of the helper
    ([getCredential] and the functions it calls) together with the
    properties of its request parser, domain matcher, override
    resolver, token acquirer and orchestrator.

    Go strings are byte sequences; they are modelled by [string], one
    [ascii] per byte.  The process state (package-level variables,
    standard output, standard error, the calls made to the identity
    broker) is threaded explicitly through a small state-and-exit
    monad. *)

From Stdlib Require Import ZArith Ascii String List Bool Lia.
From stdpp Require Import base option list gmap strings pretty.

Local Open Scope string_scope.
Local Open Scope Z_scope.

(** ** Package [strings] of the Go library *)

(** The double quote, byte 0x22. *)
Definition dquote : ascii := "034"%char.

(** [s[n:]] for [0 <= n <= len(s)]. *)
Fixpoint string_drop (n : nat) (s : string) : string :=
  match n, s with
  | O, _ => s
  | S n', String _ s' => string_drop n' s'
  | S _, EmptyString => EmptyString
  end.

(** [s[:n]] for [0 <= n <= len(s)]. *)
Fixpoint string_take (n : nat) (s : string) : string :=
  match n, s with
  | O, _ => EmptyString
  | S n', String c s' => String c (string_take n' s')
  | S _, EmptyString => EmptyString
  end.

(** [strings.HasPrefix(s, prefix)]. *)
Fixpoint HasPrefix (s pre : string) {struct pre} : bool :=
  match pre, s with
  | EmptyString, _ => true
  | String _ _, EmptyString => false
  | String a pre', String b s' => if Ascii.eqb a b then HasPrefix s' pre' else false
  end.

(** [strings.HasSuffix(s, suffix)]:
    [len(s) >= len(suffix) && s[len(s)-len(suffix):] == suffix]. *)
Definition HasSuffix (s suffix : string) : bool :=
  (String.length suffix <=? String.length s)%nat &&
  String.eqb (string_drop (String.length s - String.length suffix) s) suffix.

(** [strings.TrimPrefix(s, prefix)]. *)
Definition TrimPrefix (s pre : string) : string :=
  if HasPrefix s pre then string_drop (String.length pre) s else s.

(** [strings.TrimSuffix(s, suffix)]. *)
Definition TrimSuffix (s suffix : string) : string :=
  if HasSuffix s suffix
  then string_take (String.length s - String.length suffix) s
  else s.

(** [strings.Index(s, substr)]: the byte index of the first occurrence
    of [substr] in [s], or [-1]. *)
Fixpoint Index (s substr : string) : Z :=
  if HasPrefix s substr then 0
  else match s with
       | EmptyString => -1
       | String _ s' => let i := Index s' substr in
                        if i =? -1 then -1 else i + 1
       end.

(** [strings.Join(elems, sep)]. *)
Fixpoint Join (elems : list string) (sep : string) : string :=
  match elems with
  | [] => ""
  | [e] => e
  | e :: rest => e ++ sep ++ Join rest sep
  end.

(** A byte below [utf8.RuneSelf] (0x80). *)
Definition isASCIIbyte (c : ascii) : bool := (nat_of_ascii c <? 128)%nat.

Fixpoint isASCII (s : string) : bool :=
  match s with
  | EmptyString => true
  | String c s' => isASCIIbyte c && isASCII s'
  end.

(** ['A' <= c && c <= 'Z' ? c + ('a' - 'A') : c]. *)
Definition lowerByte (c : ascii) : ascii :=
  let n := nat_of_ascii c in
  if ((65 <=? n) && (n <=? 90))%nat then ascii_of_nat (n + 32) else c.

Fixpoint asciiToLower (s : string) : string :=
  match s with
  | EmptyString => EmptyString
  | String c s' => String (lowerByte c) (asciiToLower s')
  end.

(** The table [asciiSpace] of package [strings]:
    ['\t'], ['\n'], ['\v'], ['\f'], ['\r'] and [' ']. *)
Definition asciiSpace (c : ascii) : bool :=
  let n := nat_of_ascii c in
  ((9 <=? n) && (n <=? 13) || (n =? 32))%nat.

Fixpoint asciiTrimLeft (s : string) : string :=
  match s with
  | EmptyString => EmptyString
  | String c s' => if asciiSpace c then asciiTrimLeft s' else s
  end.

Fixpoint asciiTrimRight (s : string) : string :=
  match s with
  | EmptyString => EmptyString
  | String c s' =>
      match asciiTrimRight s' with
      | EmptyString => if asciiSpace c then EmptyString else String c EmptyString
      | r => String c r
      end
  end.

(** The Unicode tables of the Go library are not part of the program.
    On a string that has a byte at or above 0x80, [strings.ToLower] is
    [strings.Map(unicode.ToLower, s)] and [strings.TrimSpace] trims
    with [unicode.IsSpace]; both are taken as given. *)
Class Unicode := {
  unicode_ToLower : string -> string;
  unicode_TrimSpace : string -> string;
}.

(** [strings.ToLower(s)]. *)
Definition ToLower {U : Unicode} (s : string) : string :=
  if isASCII s then asciiToLower s else unicode_ToLower s.

(** [strings.TrimSpace(s)]. *)
Definition TrimSpace {U : Unicode} (s : string) : string :=
  if isASCII s then asciiTrimRight (asciiTrimLeft s) else unicode_TrimSpace s.

(** ** Package [regexp]: the one expression the program compiles *)

(** The literal the expression starts with: [realm=] and a double
    quote. *)
Definition realm_open : string := "realm=" ++ String dquote "".

(** The longest prefix of [s] that holds no double quote, and what
    follows it: the greedy match of a run of bytes other than the
    double quote. *)
Fixpoint span_unquoted (s : string) : string * string :=
  match s with
  | EmptyString => (EmptyString, EmptyString)
  | String c s' =>
      if Ascii.eqb c dquote then (EmptyString, s)
      else let '(v, rest) := span_unquoted s' in (String c v, rest)
  end.

(** The expression of [extractRealm] anchored at the start of [s]:
    [realm=], a double quote, one or more characters other than the
    double quote (the capture group), a double quote.  The result is
    the text of the whole match and of the capture group.  A byte that
    is not a double quote is matched by the negated class whether or
    not it is part of a well-formed UTF-8 sequence (an ill-formed byte
    is read as U+FFFD, of width one), and 0x22 is never part of a
    longer sequence, so the match is settled byte by byte. *)
Definition realm_match_here (s : string) : option (string * string) :=
  if HasPrefix s realm_open then
    let '(v, rest) := span_unquoted (string_drop (String.length realm_open) s) in
    match v, rest with
    | String _ _, String _ _ =>
        Some (realm_open ++ v ++ String dquote "", v)
    | _, _ => None
    end
  else None.

(** [re.FindStringSubmatch(s)] for that expression: the leftmost match
    and its capture group, or [nil]. *)
Fixpoint FindStringSubmatch (s : string) : list string :=
  match realm_match_here s with
  | Some (whole, group) => [whole; group]
  | None =>
      match s with
      | EmptyString => []
      | String _ s' => FindStringSubmatch s'
      end
  end.

(** ** Package [fmt]: the verbs the program uses *)

(** [%v] of a [[]string]. *)
Definition fmt_v_strings (l : list string) : string := "[" ++ Join l " " ++ "]".

(** [%d] of an [int64]. *)
Definition fmt_d (n : Z) : string := pretty n.

(** ** Package [bufio]: the line scanner *)

(** [bufio.MaxScanTokenSize], the size the buffer of a [Scanner]
    grows to. *)
Definition MaxScanTokenSize : N := 65536.

(** [dropCR(data)]: [data] without the carriage return at its end, if
    it has one. *)
Definition dropCR (data : string) : string := TrimSuffix data (String "013" "").

(** [bufio.NewScanner(os.Stdin)], with the split function
    [bufio.ScanLines], over the bytes [input] still to come, when the
    buffer holds [n] bytes of the current line and no newline.  With
    the buffer full the scanner gives up ([bufio.ErrTooLong]); at a
    newline the line is complete; at the end of the input the bytes
    in the buffer, if any, are the last line.  The result is the rest
    of the current line, when the scanner delivers that line, and the
    lines it delivers after it, carriage returns still in place. *)
Fixpoint Scanner_scan (input : string) (n : N) : option string * list string :=
  if (MaxScanTokenSize <=? n)%N then (None, [])
  else
    match input with
    | EmptyString => (if (n =? 0)%N then None else Some EmptyString, [])
    | String c rest =>
        if Ascii.eqb c "010" then
          (Some EmptyString,
           match Scanner_scan rest 0 with
           | (Some line, after) => line :: after
           | (None, after) => after
           end)
        else
          match Scanner_scan rest (n + 1) with
          | (Some line, after) => (Some (String c line), after)
          | (None, after) => (None, after)
          end
    end.

(** What [scanner.Text()] returns in turn while [scanner.Scan()] is
    true, for the bytes [input] on standard input. *)
Definition Scanner_lines (input : string) : list string :=
  map dropCR match Scanner_scan input 0 with
             | (Some line, after) => line :: after
             | (None, after) => after
             end.

(** ** External collaborators *)

(** A Go [error], by its message (what [%v] prints). *)
Definition error : Type := string.

Inductive result (A : Type) : Type :=
| Ok (a : A)
| Err (e : error).
Arguments Ok {A} a.
Arguments Err {A} e.

(** [time.Time], by the two observations the program makes of it. *)
Record Time := { Unix : Z; Time_String : string }.

(** [azcore.AccessToken]. *)
Record AccessToken := { Token : string; ExpiresOn : Time }.

(** [azidentity.AzureCLICredentialOptions]. *)
Record AzureCLICredentialOptions := { TenantID : string }.

(** [policy.TokenRequestOptions]. *)
Record TokenRequestOptions := { Scopes : list string }.

(** What the process has asked of the identity broker so far, oldest
    first, with the answers it got. *)
Inductive BrokerEvent : Type :=
| NewCredentialEvent (opts : option AzureCLICredentialOptions) (err : option error)
| GetTokenEvent (opts : TokenRequestOptions) (res : result AccessToken).

(** Package [azidentity]: the broker.  Its answers may depend on the
    calls made before. *)
Record Azidentity := {
  AzureCLICredential : Type;
  NewAzureCLICredential :
    list BrokerEvent -> option AzureCLICredentialOptions -> result AzureCLICredential;
  GetToken :
    list BrokerEvent -> AzureCLICredential -> TokenRequestOptions -> result AccessToken;
}.

(** [gitconfig.Configs] after [LoadAll], by the three queries the
    program makes. *)
Record Configs := {
  Configs_GetAll : string -> list string;
  Configs_List : string -> list string;
  Configs_Get : string -> string;
}.

(** ** The process *)

(** The package-level variables of [main.go], the two output streams
    and the broker calls made. *)
Record Process := {
  verbosity : Z;
  allowedDomains : list string;
  resourceOverrides : gmap string string;
  tenantOverrides : gmap string string;
  stdout : string;
  stderr : string;
  brokerLog : list BrokerEvent;
}.

(** A computation returns to its caller or ends the process with
    [os.Exit(code)]. *)
Inductive Outcome (A : Type) : Type :=
| Returned (a : A)
| Exited (code : Z).
Arguments Returned {A} a.
Arguments Exited {A} code.

Definition M (A : Type) : Type := Process -> Outcome A * Process.

#[global] Instance M_ret : MRet M := fun A a p => (Returned a, p).

#[global] Instance M_bind : MBind M := fun A B f m p =>
  match m p with
  | (Returned a, p') => f a p'
  | (Exited code, p') => (Exited code, p')
  end.

Definition gets {A : Type} (f : Process -> A) : M A := fun p => (Returned (f p), p).

Definition modify (f : Process -> Process) : M unit := fun p => (Returned tt, f p).

Definition os_Exit {A : Type} (code : Z) : M A := fun p => (Exited code, p).

Definition set_allowedDomains (l : list string) (p : Process) : Process :=
  {| verbosity := verbosity p; allowedDomains := l;
     resourceOverrides := resourceOverrides p; tenantOverrides := tenantOverrides p;
     stdout := stdout p; stderr := stderr p; brokerLog := brokerLog p |}.

Definition set_resourceOverrides (m : gmap string string) (p : Process) : Process :=
  {| verbosity := verbosity p; allowedDomains := allowedDomains p;
     resourceOverrides := m; tenantOverrides := tenantOverrides p;
     stdout := stdout p; stderr := stderr p; brokerLog := brokerLog p |}.

Definition set_tenantOverrides (m : gmap string string) (p : Process) : Process :=
  {| verbosity := verbosity p; allowedDomains := allowedDomains p;
     resourceOverrides := resourceOverrides p; tenantOverrides := m;
     stdout := stdout p; stderr := stderr p; brokerLog := brokerLog p |}.

Definition write_stdout (s : string) (p : Process) : Process :=
  {| verbosity := verbosity p; allowedDomains := allowedDomains p;
     resourceOverrides := resourceOverrides p; tenantOverrides := tenantOverrides p;
     stdout := stdout p ++ s; stderr := stderr p; brokerLog := brokerLog p |}.

Definition write_stderr (s : string) (p : Process) : Process :=
  {| verbosity := verbosity p; allowedDomains := allowedDomains p;
     resourceOverrides := resourceOverrides p; tenantOverrides := tenantOverrides p;
     stdout := stdout p; stderr := stderr p ++ s; brokerLog := brokerLog p |}.

Definition log_broker (e : BrokerEvent) (p : Process) : Process :=
  {| verbosity := verbosity p; allowedDomains := allowedDomains p;
     resourceOverrides := resourceOverrides p; tenantOverrides := tenantOverrides p;
     stdout := stdout p; stderr := stderr p; brokerLog := (brokerLog p ++ [e])%list |}.

(** The process as [main] finds it: every package-level variable at its
    zero value but [verbosity], which the flag parser has set. *)
Definition start (v : Z) : Process :=
  {| verbosity := v; allowedDomains := []; resourceOverrides := ∅;
     tenantOverrides := ∅; stdout := ""; stderr := ""; brokerLog := [] |}.

(** [for _, x := range l { body(x) }]. *)
Fixpoint for_range {A : Type} (l : list A) (body : A -> M unit) : M unit :=
  match l with
  | [] => mret tt
  | x :: rest => body x ;; for_range rest body
  end.

(** [m[k]] on a Go map: the zero value when [k] is absent. *)
Definition map_index (m : gmap string string) (k : string) : string :=
  default "" (m !! k).

(** ** [main.go] *)

Definition defaultAllowedDomains : list string := ["visualstudio.com"; "dev.azure.com"].

Definition defaultResourceOverrides : gmap string string := ∅.

(** The message is the format with its arguments already substituted. *)
Definition debugf (level : Z) (msg : string) : M unit :=
  v ← gets verbosity;
  if v >=? level then modify (write_stderr ("[DEBUG] " ++ msg ++ String "010" ""))
  else mret tt.

Definition fmt_Println (s : string) : M unit :=
  modify (write_stdout (s ++ String "010" "")).

Definition fmt_Print (s : string) : M unit := modify (write_stdout s).

Definition isAllowedHost {U : Unicode} (host : string) (allowedDomains : list string) : bool :=
  let host := ToLower host in
  (fix loop (domains : list string) : bool :=
     match domains with
     | [] => false
     | domain :: rest =>
         let domain := ToLower domain in
         if String.eqb host domain || HasSuffix host ("." ++ domain) then true
         else loop rest
     end) allowedDomains.

(** The package-level table [resourceOverrides] is the first argument. *)
Definition getResourceForHost (resourceOverrides : gmap string string)
    (protocol host : string) : string :=
  let url := protocol ++ "://" ++ host in
  match resourceOverrides !! url with
  | Some resource => resource
  | None =>
      match resourceOverrides !! host with
      | Some resource => resource
      | None => url ++ "/"
      end
  end.

(** The package-level table [tenantOverrides] is the first argument. *)
Definition getTenantForHost (tenantOverrides : gmap string string)
    (protocol host : string) : string :=
  let url := protocol ++ "://" ++ host in
  match tenantOverrides !! url with
  | Some tenant => tenant
  | None =>
      match tenantOverrides !! host with
      | Some tenant => tenant
      | None => ""
      end
  end.

Fixpoint extractRealm (wwwauthEntries : list string) : string :=
  match wwwauthEntries with
  | [] => ""
  | entry :: rest =>
      let matches := FindStringSubmatch entry in
      if (1 <? length matches)%nat then nth 1 matches ""
      else extractRealm rest
  end.

(** The scope [getAccessToken] asks the broker for. *)
Definition scopeOf (resource : string) : string :=
  let scope := resource in
  let scope := if negb (HasSuffix scope "/") then scope ++ "/" else scope in
  scope ++ ".default".

Definition outputCredential (accessToken : string) (expiryUTC : Z) : M unit :=
  fmt_Println "authtype=bearer" ;;
  fmt_Println "username=null" ;;
  fmt_Print ("password=" ++ accessToken ++ String "010" "") ;;
  if expiryUTC >? 0
  then fmt_Print ("password_expiry_utc=" ++ fmt_d expiryUTC ++ String "010" "")
  else mret tt.

Section Helper.

Context {U : Unicode}.
(** The configuration [gitconfig.New().LoadAll] finds, the broker,
    and the lines [bufio.Scanner] delivers from standard input before
    [Scan] returns false (at the end of the input or, as [parseInput]
    never asks the scanner for its error, where the scanner gives
    up). *)
Variable git : Configs.
Variable az : Azidentity.
Variable stdin : list string.

Definition loadConfig : M unit :=
  debugf 2 "Loading git configuration" ;;
  let domains := Configs_GetAll git "azureclicredentialhelper.alloweddomain" in
  (if (length domains =? 0)%nat then
     modify (set_allowedDomains defaultAllowedDomains) ;;
     ad ← gets allowedDomains;
     debugf 2 ("Using default allowed domains: " ++ fmt_v_strings ad)
   else
     for_range domains (fun d =>
       let d := TrimSpace d in
       if negb (String.eqb d "")
       then ad ← gets allowedDomains; modify (set_allowedDomains (ad ++ [d])%list)
       else mret tt) ;;
     ad ← gets allowedDomains;
     (if (length ad =? 0)%nat
      then modify (set_allowedDomains defaultAllowedDomains)
      else mret tt) ;;
     ad ← gets allowedDomains;
     debugf 2 ("Loaded allowed domains from config: " ++ fmt_v_strings ad)) ;;
  modify (set_resourceOverrides defaultResourceOverrides) ;;
  modify (set_tenantOverrides ∅) ;;
  let pre := "azureclicredentialhelper." in
  let resourceSuffix := ".resource" in
  let tenantSuffix := ".tenant" in
  for_range (Configs_List git pre) (fun key =>
    if HasSuffix key resourceSuffix then
      let urlPart := TrimPrefix key pre in
      let urlPart := TrimSuffix urlPart resourceSuffix in
      if negb (String.eqb urlPart "") then
        let resource := Configs_Get git key in
        if negb (String.eqb resource "") then
          ro ← gets resourceOverrides;
          modify (set_resourceOverrides (<[urlPart := resource]> ro)) ;;
          debugf 2 ("Loaded resource override: " ++ urlPart ++ " -> " ++ resource)
        else mret tt
      else mret tt
    else if HasSuffix key tenantSuffix then
      let urlPart := TrimPrefix key pre in
      let urlPart := TrimSuffix urlPart tenantSuffix in
      if negb (String.eqb urlPart "") then
        let tenant := Configs_Get git key in
        if negb (String.eqb tenant "") then
          to ← gets tenantOverrides;
          modify (set_tenantOverrides (<[urlPart := tenant]> to)) ;;
          debugf 2 ("Loaded tenant override: " ++ urlPart ++ " -> " ++ tenant)
        else mret tt
      else mret tt
    else mret tt).

(** The loop of [parseInput] over the lines still to scan. *)
Fixpoint parseInput_loop (lines : list string)
    (data : gmap string string) (wwwauth : list string)
    : M (gmap string string * list string) :=
  match lines with
  | [] => mret (data, wwwauth)
  | text :: rest =>
      let line := TrimSpace text in
      if String.eqb line "" then mret (data, wwwauth)
      else
        let idx := Index line "=" in
        if negb (idx =? -1) then
          let key := string_take (Z.to_nat idx) line in
          let value := string_drop (Z.to_nat (idx + 1)) line in
          let '(data, wwwauth) :=
            if String.eqb key "wwwauth[]" then (data, (wwwauth ++ [value])%list)
            else (<[key := value]> data, wwwauth) in
          debugf 3 ("Parsed input: " ++ key ++ "=" ++ value) ;;
          parseInput_loop rest data wwwauth
        else parseInput_loop rest data wwwauth
  end.

Definition parseInput : M (gmap string string * list string) :=
  parseInput_loop stdin ∅ [].

Definition azidentity_NewAzureCLICredential
    (opts : option AzureCLICredentialOptions) : M (result (AzureCLICredential az)) :=
  history ← gets brokerLog;
  let r := NewAzureCLICredential az history opts in
  modify (log_broker (NewCredentialEvent opts
                        match r with Ok _ => None | Err e => Some e end)) ;;
  mret r.

Definition cred_GetToken (cred : AzureCLICredential az)
    (opts : TokenRequestOptions) : M (result AccessToken) :=
  history ← gets brokerLog;
  let r := GetToken az history cred opts in
  modify (log_broker (GetTokenEvent opts r)) ;;
  mret r.

Definition getAccessToken (cred : AzureCLICredential az) (resource : string)
    : M (string * Z * option error) :=
  let scope := scopeOf resource in
  debugf 2 ("Requesting token for scope: " ++ scope) ;;
  r ← cred_GetToken cred {| Scopes := [scope] |};
  match r with
  | Err err =>
      debugf 1 ("Failed to get token: " ++ err) ;;
      mret ("", 0, Some err)
  | Ok token =>
      debugf 2 ("Token acquired, expires at: " ++ Time_String (ExpiresOn token)) ;;
      mret (Token token, Unix (ExpiresOn token), None)
  end.

Definition getCredential : M unit :=
  loadConfig ;;
  '(data, wwwauth) ← parseInput;
  let protocol := map_index data "protocol" in
  let host := map_index data "host" in
  debugf 1 ("Handling get request for " ++ protocol ++ "://" ++ host) ;;
  if negb (String.eqb protocol "https") then
    debugf 1 ("Skipping non-HTTPS protocol: " ++ protocol)
  else
    domains ← gets allowedDomains;
    if negb (isAllowedHost host domains) then
      debugf 1 ("Host not in allowed domains: " ++ host)
    else
      tenants ← gets tenantOverrides;
      let tenant := getTenantForHost tenants protocol host in
      credOpts ← (if negb (String.eqb tenant "") then
                    debugf 1 ("Using tenant override: " ++ tenant) ;;
                    mret (Some {| TenantID := tenant |})
                  else mret None);
      r ← azidentity_NewAzureCLICredential credOpts;
      match r with
      | Err err =>
          debugf 1 ("Failed to create Azure CLI credential: " ++ err) ;;
          os_Exit 1
      | Ok cred =>
          overrides ← gets resourceOverrides;
          let resource := getResourceForHost overrides protocol host in
          debugf 1 ("Using resource: " ++ resource) ;;
          '(accessToken, expiryUTC, err) ← getAccessToken cred resource;
          '(accessToken, expiryUTC, err) ←
            match err with
            | Some _ =>
                let url := protocol ++ "://" ++ host in
                overrides ← gets resourceOverrides;
                let hasURLOverride := bool_decide (is_Some (overrides !! url)) in
                let hasHostOverride := bool_decide (is_Some (overrides !! host)) in
                if negb hasURLOverride && negb hasHostOverride then
                  let realm := extractRealm wwwauth in
                  if negb (String.eqb realm "") then
                    debugf 1 ("Retrying with realm from wwwauth: " ++ realm) ;;
                    getAccessToken cred realm
                  else mret (accessToken, expiryUTC, err)
                else mret (accessToken, expiryUTC, err)
            | None => mret (accessToken, expiryUTC, err)
            end;
          match err with
          | None =>
              if negb (String.eqb accessToken "") then
                debugf 1 "Successfully obtained credential" ;;
                outputCredential accessToken expiryUTC
              else mret tt
          | Some _ => mret tt
          end
      end.

(** One run of the [get] command: the exit status of the process
    (zero when [getCredential] returns to [main]) and the process as
    it ends. *)
Definition run_get (v : Z) : Z * Process :=
  match getCredential (start v) with
  | (Returned _, p) => (0, p)
  | (Exited code, p) => (code, p)
  end.

End Helper.

(** ** [main.go], the commands besides [get] *)

(** [strings.Fields] on a string of ASCII bytes: the maximal runs of
    bytes other than white space.  [cur] is the field being read. *)
Fixpoint asciiFields_from (s cur : string) : list string :=
  match s with
  | EmptyString => match cur with EmptyString => [] | _ => [cur] end
  | String c s' =>
      if asciiSpace c
      then match cur with
           | EmptyString => asciiFields_from s' EmptyString
           | _ => cur :: asciiFields_from s' EmptyString
           end
      else asciiFields_from s' (cur ++ String c EmptyString)
  end.

(** On a string that has a byte at or above 0x80, [strings.Fields]
    is [strings.FieldsFunc(s, unicode.IsSpace)], taken as given. *)
Class UnicodeFields := {
  unicode_Fields : string -> list string;
}.

(** [strings.Fields(s)]. *)
Definition Fields {F : UnicodeFields} (s : string) : list string :=
  if isASCII s then asciiFields_from s EmptyString else unicode_Fields s.

(** What one run of the [git] child process does: what it writes to
    the standard output and standard error it shares with the helper,
    and the error [cmd.Run] returns. *)
Record ChildRun := {
  child_stdout : string;
  child_stderr : string;
  child_err : option error;
}.

(** The operating system, by what the program asks of it.  A file is
    opened for the lines [bufio.Scanner] delivers from it; the outcome
    of a [git] run may depend on the runs made before. *)
Record OS := {
  os_UserHomeDir : result string;
  filepath_Join : string -> string -> string;
  os_Open : string -> result (list string);
  os_IsNotExist : error -> bool;
  os_Executable : result string;
  filepath_EvalSymlinks : string -> result string;
  filepath_Dir : string -> string;
  exec_git : list (list string) -> list string -> ChildRun;
}.

(** [fmt.Fprintf(os.Stderr, ...)], the format already filled in. *)
Definition fmt_Fprint_stderr (s : string) : M unit := modify (write_stderr s).

(** [for _, x := range l { ... }] around a variable the body updates. *)
Fixpoint fold_range {A B : Type} (l : list A) (acc : B) (body : B -> A -> M B) : M B :=
  match l with
  | [] => mret acc
  | x :: rest => acc ← body acc x; fold_range rest acc body
  end.

(** The process together with the [git] runs made so far, oldest
    first, each by its arguments. *)
Record Shell := {
  process : Process;
  gitLog : list (list string);
}.

Definition MS (A : Type) : Type := Shell -> Outcome A * Shell.

#[global] Instance MS_ret : MRet MS := fun A a s => (Returned a, s).

#[global] Instance MS_bind : MBind MS := fun A B f m s =>
  match m s with
  | (Returned a, s') => f a s'
  | (Exited code, s') => (Exited code, s')
  end.

(** A computation on the process, run in the shell. *)
Definition lift {A : Type} (m : M A) : MS A := fun s =>
  match m (process s) with
  | (o, p') => (o, {| process := p'; gitLog := gitLog s |})
  end.

Section Commands.

Context {U : Unicode} {F : UnicodeFields}.
Variable os : OS.

Definition getExecutablePath : result string :=
  match os_Executable os with
  | Err err => Err ("failed to get executable path: " ++ err)
  | Ok exe =>
      match filepath_EvalSymlinks os exe with
      | Err err => Err ("failed to resolve symlinks: " ++ err)
      | Ok exe => Ok exe
      end
  end.

(** [cmd.Run()] for [exec.Command("git", args...)] with the helper's
    standard output and standard error. *)
Definition cmd_Run (args : list string) : MS (option error) := fun s =>
  let run := exec_git os (gitLog s) args in
  (Returned (child_err run),
   {| process := write_stderr (child_stderr run)
                   (write_stdout (child_stdout run) (process s));
      gitLog := (gitLog s ++ [args])%list |}).

Definition runGitConfig (args : list string) : MS (option error) :=
  lift (debugf 1 ("Running: git " ++ Join args " ")) ;;
  cmd_Run args.

Definition checkNetrcForDomains (domains : list string) : M (list string) :=
  match os_UserHomeDir os with
  | Err err =>
      debugf 1 ("Failed to get home directory: " ++ err) ;;
      mret []
  | Ok home =>
      let netrcPath := filepath_Join os home ".netrc" in
      match os_Open os netrcPath with
      | Err err =>
          if os_IsNotExist os err then
            debugf 2 ("No .netrc file found at " ++ netrcPath) ;;
            mret []
          else
            debugf 1 ("Failed to open .netrc: " ++ err) ;;
            mret []
      | Ok file =>
          debugf 2 ("Checking .netrc at " ++ netrcPath) ;;
          fold_range file [] (fun foundHosts text =>
            let line := TrimSpace text in
            if String.eqb line "" || HasPrefix line "#" then mret foundHosts
            else
              let fields := Fields line in
              fold_range (seq 0 (length fields - 1)) foundHosts (fun foundHosts i =>
                if String.eqb (nth i fields "") "machine" then
                  let host := ToLower (nth (i + 1) fields "") in
                  fold_range domains foundHosts (fun foundHosts domain =>
                    let domain := ToLower domain in
                    if String.eqb host domain || HasSuffix host ("." ++ domain) then
                      debugf 1 ("Found matching host in .netrc: " ++ host) ;;
                      mret (foundHosts ++ [host])%list
                    else mret foundHosts)
                else mret foundHosts))
      end
  end.

Definition initCommand : MS unit :=
  match getExecutablePath with
  | Err err =>
      lift (fmt_Fprint_stderr ("Error: " ++ err ++ String "010" "")) ;;
      lift (os_Exit 1)
  | Ok exePath =>
      netrcHosts ← lift (checkNetrcForDomains defaultAllowedDomains);
      (if (0 <? length netrcHosts)%nat then
         lift (fmt_Fprint_stderr
                 (String "010" "⚠️  WARNING: Found entries in ~/.netrc that may conflict with this credential helper:"
                  ++ String "010" "")) ;;
         lift (for_range netrcHosts (fun host =>
                 fmt_Fprint_stderr ("   - " ++ host ++ String "010" ""))) ;;
         lift (fmt_Fprint_stderr
                 (String "010" "Please remove these entries from ~/.netrc to avoid authentication conflicts."
                  ++ String "010" (String "010" "")))
       else mret tt) ;;
      lift (fmt_Println "Configuring git credential helpers...") ;;
      err ← runGitConfig ["config"; "--global"; "--replace-all"; "credential.helper"; "cache"];
      match err with
      | Some err =>
          lift (fmt_Fprint_stderr ("Error setting cache helper: " ++ err ++ String "010" "")) ;;
          lift (os_Exit 1)
      | None =>
          lift (fmt_Println "✓ Added cache credential helper") ;;
          err ← runGitConfig ["config"; "--global"; "--add"; "credential.helper"; exePath];
          match err with
          | Some err =>
              lift (fmt_Fprint_stderr
                      ("Error adding azure-cli helper: " ++ err ++ String "010" "")) ;;
              lift (os_Exit 1)
          | None =>
              lift (fmt_Print ("✓ Added azure-cli credential helper: " ++ exePath
                               ++ String "010" "")) ;;
              lift (fmt_Println (String "010" "Git credential configuration complete!"))
          end
      end
  end.

Definition exportsCommand : M unit :=
  match getExecutablePath with
  | Err err =>
      fmt_Fprint_stderr ("Error: " ++ err ++ String "010" "") ;;
      os_Exit 1
  | Ok exePath =>
      let exeDir := filepath_Dir os exePath in
      fmt_Print ("export GOAUTH=" ++ String dquote "git " ++ exeDir
                 ++ String dquote (String "010" ""))
  end.

(** One run of the [init] command: the exit status, and the shell as
    the run ends. *)
Definition run_init (v : Z) : Z * Shell :=
  match initCommand {| process := start v; gitLog := [] |} with
  | (Returned _, s) => (0, s)
  | (Exited code, s) => (code, s)
  end.

(** One run of the [exports] command. *)
Definition run_exports (v : Z) : Z * Process :=
  match exportsCommand (start v) with
  | (Returned _, p) => (0, p)
  | (Exited code, p) => (code, p)
  end.

End Commands.

(** * Specification vocabulary

    The words the properties below are stated in: what the
    specification calls a suffix, a blank line, a key-value pair, a
    realm, an admitted request, and the ways a run can go. *)

(** [s] ends with [suffix]. *)
Definition EndsWith (s suffix : string) : Prop := exists pre, s = pre ++ suffix.

(** [s] ends with one slash and no more. *)
Definition ends_with_one_slash (s : string) : Prop :=
  EndsWith s "/" /\ ~ EndsWith s "//".

(** C4 as stated, at the resource [r]: the scope is some [r'] that
    ends with exactly one slash, followed by [.default]. *)
Definition single_slash_scope (r : string) : Prop :=
  exists r', scopeOf r = r' ++ ".default" /\ ends_with_one_slash r'.

(** The configured entries that survive: trimmed, the empty ones
    dropped. *)
Definition kept_domains {U : Unicode} (domains : list string) : list string :=
  List.filter (fun d => negb (String.eqb d "")) (map TrimSpace domains).

(** The allowed domains after [loadConfig], given those before. *)
Definition loaded_domains {U : Unicode} (git : Configs) (before : list string)
    : list string :=
  let domains := Configs_GetAll git "azureclicredentialhelper.alloweddomain" in
  if (length domains =? 0)%nat then defaultAllowedDomains
  else let ad := (before ++ kept_domains domains)%list in
       if (length ad =? 0)%nat then defaultAllowedDomains else ad.

(** The byte [c] occurs in [s]. *)
Definition occurs (c : ascii) (s : string) : Prop :=
  exists a b, s = a ++ String c b.

(** A line cut at its first [=]: the key before it, the value after
    it; nothing when the line has no [=]. *)
Fixpoint cut_line (line : string) : option (string * string) :=
  match line with
  | EmptyString => None
  | String c rest =>
      if Ascii.eqb c "=" then Some (EmptyString, rest)
      else match cut_line rest with
           | Some (k, v) => Some (String c k, v)
           | None => None
           end
  end.

(** The lines of the request, trimmed: those before the first blank
    line, or all of them when there is none. *)
Fixpoint lines_read {U : Unicode} (lines : list string) : list string :=
  match lines with
  | [] => []
  | text :: rest =>
      let line := TrimSpace text in
      if String.eqb line "" then [] else line :: lines_read rest
  end.

(** The key-value pairs of the request in input order, the lines
    without [=] left out. *)
Definition pairs_read {U : Unicode} (lines : list string) : list (string * string) :=
  omap cut_line (lines_read lines).

Definition is_challenge (kv : string * string) : bool := String.eqb kv.1 "wwwauth[]".

(** The challenge headers: the values under the key [wwwauth[]], in
    input order. *)
Definition request_headers {U : Unicode} (lines : list string) : list string :=
  map snd (List.filter is_challenge (pairs_read lines)).

(** The other pairs, in input order. *)
Definition request_pairs {U : Unicode} (lines : list string) : list (string * string) :=
  List.filter (fun kv => negb (is_challenge kv)) (pairs_read lines).

(** The attributes: each of the other pairs written into the map in
    turn, over whatever its key held. *)
Definition request_attributes {U : Unicode} (lines : list string) : gmap string string :=
  fold_left (fun m kv => <[kv.1 := kv.2]> m) (request_pairs lines) ∅.

(** The lines of a stream: its bytes cut at each newline, the newline
    left out; what follows the last newline is a line when it is not
    empty. *)
Fixpoint raw_lines (input : string) : list string :=
  match input with
  | EmptyString => []
  | String c rest =>
      if Ascii.eqb c "010" then EmptyString :: raw_lines rest
      else match raw_lines rest with
           | [] => [String c EmptyString]
           | line :: after => String c line :: after
           end
  end.

(** The same lines, each without the carriage return at its end. *)
Definition stream_lines (input : string) : list string :=
  map dropCR (raw_lines input).

(** A line of fewer than 65536 bytes, its newline not counted. *)
Definition fits (line : string) : bool :=
  (N.of_nat (String.length line) <? MaxScanTokenSize)%N.

(** The lines before the first that does not fit. *)
Fixpoint lines_before_long (lines : list string) : list string :=
  match lines with
  | [] => []
  | line :: after => if fits line then line :: lines_before_long after else []
  end.

(** C8 as stated, for the stream [input] on standard input: what
    [parseInput] returns is the reading of the lines of the stream, up
    to its first blank line or its end. *)
Definition whole_request_read {U : Unicode} (input : string) : Prop :=
  (parseInput (Scanner_lines input) (start 0)).1
  = Returned (request_attributes (stream_lines input),
              request_headers (stream_lines input)).

(** [entry] holds, after [pre], the text [realm=], a double quote, the
    value [v], which is not empty and holds no double quote, and a
    double quote. *)
Definition realm_at (entry pre v post : string) : Prop :=
  entry = pre ++ realm_open ++ v ++ String dquote post
  /\ v <> "" /\ ~ occurs dquote v.

Definition has_realm (entry : string) : Prop :=
  exists pre v post, realm_at entry pre v post.

(** [v] is the value of the leftmost such match in [entry]. *)
Definition first_realm_in (entry v : string) : Prop :=
  exists pre post,
    realm_at entry pre v post
    /\ forall pre' v' post',
         realm_at entry pre' v' post' -> (String.length pre <= String.length pre')%nat.

(** [v] is the value of the first match, the headers taken in order. *)
Definition first_realm (entries : list string) (v : string) : Prop :=
  exists before entry after,
    entries = (before ++ entry :: after)%list
    /\ (forall e, In e before -> ~ has_realm e)
    /\ first_realm_in entry v.

(** Lines as [fmt.Println] writes them. *)
Fixpoint unlines (lines : list string) : string :=
  match lines with
  | [] => ""
  | l :: rest => l ++ String "010" (unlines rest)
  end.

(** The lines of a credential. *)
Definition credential_lines (T : string) (E : Z) : list string :=
  if 0 <? E
  then ["authtype=bearer"; "username=null"; "password=" ++ T;
        "password_expiry_utc=" ++ fmt_d E]
  else ["authtype=bearer"; "username=null"; "password=" ++ T].

(** What the helper prints for the broker's answer [token]. *)
Definition credential_text (token : AccessToken) : string :=
  if String.eqb (Token token) "" then ""
  else unlines (credential_lines (Token token) (Unix (ExpiresOn token))).

Definition request_protocol (data : gmap string string) : string :=
  map_index data "protocol".

Definition request_host (data : gmap string string) : string :=
  map_index data "host".

(** The options the broker handle is built with. *)
Definition credential_options (data : gmap string string) (p : Process)
    : option AzureCLICredentialOptions :=
  let tenant :=
    getTenantForHost (tenantOverrides p) (request_protocol data) (request_host data) in
  if String.eqb tenant "" then None else Some {| TenantID := tenant |}.

(** The resource of the primary attempt. *)
Definition primary_resource (data : gmap string string) (p : Process) : string :=
  getResourceForHost (resourceOverrides p) (request_protocol data) (request_host data).

(** The host has an explicit resource override, under the full-URL key
    or under the bare-host key. *)
Definition has_override (data : gmap string string) (p : Process) : Prop :=
  is_Some (resourceOverrides p !! (request_protocol data ++ "://" ++ request_host data))
  \/ is_Some (resourceOverrides p !! request_host data).

(** The request passes the gate: [https], and an allowed host. *)
Definition admitted {U : Unicode} (data : gmap string string) (p : Process) : Prop :=
  request_protocol data = "https"
  /\ isAllowedHost (request_host data) (allowedDomains p) = true.

(** The token requests among the broker calls, oldest first, each with
    its answer. *)
Definition token_calls (log : list BrokerEvent)
    : list (TokenRequestOptions * result AccessToken) :=
  omap (fun ev => match ev with
                  | GetTokenEvent opts res => Some (opts, res)
                  | NewCredentialEvent _ _ => None
                  end) log.

(** The broker's answer to the last token request, if any was made. *)
Definition last_answer (log : list BrokerEvent) : option (result AccessToken) :=
  last (map snd (token_calls log)).

(** The process after [debugf level msg]. *)
Definition debug_state (level : Z) (msg : string) (p : Process) : Process :=
  if verbosity p >=? level
  then write_stderr ("[DEBUG] " ++ msg ++ String "010" "") p
  else p.

(** Nothing but standard error differs between [p] and [p'], and
    standard error does not either when the helper is not verbose. *)
Definition debug_only (p p' : Process) : Prop :=
  verbosity p' = verbosity p /\
  allowedDomains p' = allowedDomains p /\
  resourceOverrides p' = resourceOverrides p /\
  tenantOverrides p' = tenantOverrides p /\
  stdout p' = stdout p /\
  brokerLog p' = brokerLog p /\
  (verbosity p < 1 -> stderr p' = stderr p).

(** As [debug_only], but the override tables may differ too. *)
Definition tables_only (p p' : Process) : Prop :=
  verbosity p' = verbosity p /\
  allowedDomains p' = allowedDomains p /\
  stdout p' = stdout p /\
  brokerLog p' = brokerLog p /\
  (verbosity p < 1 -> stderr p' = stderr p).

(** [post m p Q]: what [m] does from [p] satisfies [Q]. *)
Definition post {A : Type} (m : M A) (p : Process)
    (Q : Outcome A -> Process -> Prop) : Prop :=
  Q (m p).1 (m p).2.

(** The exit status of the process. *)
Definition status (o : Outcome unit) : Z :=
  match o with
  | Returned _ => 0
  | Exited code => code
  end.

(** From the start, [loadConfig] and [parseInput] return the request
    [(data, wwwauth)] and leave the process [p]. *)
Definition reads {U : Unicode} (git : Configs) (stdin : list string) (v : Z)
    (data : gmap string string) (wwwauth : list string) (p : Process) : Prop :=
  exists p1,
    loadConfig git (start v) = (Returned tt, p1)
    /\ parseInput stdin p1 = (Returned (data, wwwauth), p).

(** The ways a run of the [get] command goes, for the request
    [(data, wwwauth)] read into the process [p]: its exit status and
    the process as it ends. *)
Inductive Run {U : Unicode} (az : Azidentity)
    (data : gmap string string) (wwwauth : list string) (p : Process)
    : Z -> Process -> Prop :=
| Run_skipped (pf : Process) :
    ~ admitted data p ->
    debug_only p pf ->
    Run az data wwwauth p 0 pf
| Run_fatal (e : error) (p' : Process) :
    admitted data p ->
    NewAzureCLICredential az (brokerLog p) (credential_options data p) = Err e ->
    debug_only p p' ->
    Run az data wwwauth p 1
      (debug_state 1 ("Failed to create Azure CLI credential: " ++ e)
         (log_broker (NewCredentialEvent (credential_options data p) (Some e)) p'))
| Run_primary (cred : AzureCLICredential az) (token : AccessToken) (pf : Process) :
    let created := NewCredentialEvent (credential_options data p) None in
    let opts := {| Scopes := [scopeOf (primary_resource data p)] |} in
    admitted data p ->
    NewAzureCLICredential az (brokerLog p) (credential_options data p) = Ok cred ->
    GetToken az (brokerLog p ++ [created]) cred opts = Ok token ->
    brokerLog pf = (brokerLog p ++ [created; GetTokenEvent opts (Ok token)])%list ->
    stdout pf = stdout p ++ credential_text token ->
    Run az data wwwauth p 0 pf
| Run_failed (cred : AzureCLICredential az) (e : error) (pf : Process) :
    let created := NewCredentialEvent (credential_options data p) None in
    let opts := {| Scopes := [scopeOf (primary_resource data p)] |} in
    admitted data p ->
    NewAzureCLICredential az (brokerLog p) (credential_options data p) = Ok cred ->
    GetToken az (brokerLog p ++ [created]) cred opts = Err e ->
    has_override data p \/ extractRealm wwwauth = "" ->
    brokerLog pf = (brokerLog p ++ [created; GetTokenEvent opts (Err e)])%list ->
    stdout pf = stdout p ->
    Run az data wwwauth p 0 pf
| Run_realm (cred : AzureCLICredential az) (e : error) (second : result AccessToken)
    (pf : Process) :
    let created := NewCredentialEvent (credential_options data p) None in
    let opts := {| Scopes := [scopeOf (primary_resource data p)] |} in
    let opts' := {| Scopes := [scopeOf (extractRealm wwwauth)] |} in
    admitted data p ->
    NewAzureCLICredential az (brokerLog p) (credential_options data p) = Ok cred ->
    GetToken az (brokerLog p ++ [created]) cred opts = Err e ->
    ~ has_override data p ->
    extractRealm wwwauth <> "" ->
    GetToken az (brokerLog p ++ [created; GetTokenEvent opts (Err e)]) cred opts'
      = second ->
    brokerLog pf = (brokerLog p ++ [created; GetTokenEvent opts (Err e);
                                    GetTokenEvent opts' second])%list ->
    stdout pf = stdout p ++ match second with
                            | Ok token => credential_text token
                            | Err _ => ""
                            end ->
    Run az data wwwauth p 0 pf.

(** The broker handle could not be built, with the error [e]. *)
Definition construction_failed (log : list BrokerEvent) (e : error) : Prop :=
  exists opts, In (NewCredentialEvent opts (Some e)) log.

(** The line [debugf] writes for a failed construction. *)
Definition failure_line (e : error) : string :=
  "[DEBUG] Failed to create Azure CLI credential: " ++ e ++ String "010" "".

(** C9 as stated, for one run: a failed construction ends the process
    with a non-zero status and puts its error on standard error. *)
Definition failure_reported {U : Unicode} (git : Configs) (az : Azidentity)
    (stdin : list string) (v : Z) : Prop :=
  forall e,
    construction_failed (brokerLog (run_get git az stdin v).2) e ->
    (run_get git az stdin v).1 <> 0
    /\ exists a b, stderr (run_get git az stdin v).2 = a ++ e ++ b.

(** The process once the configuration is loaded and the request is
    parsed. *)
Definition read_state {U : Unicode} (git : Configs) (stdin : list string) (v : Z) : Process :=
  (parseInput stdin (loadConfig git (start v)).2).2.

(** [m] leaves the verbosity alone and, when the helper is not
    verbose, standard error too. *)
Definition quiet {A : Type} (m : M A) : Prop :=
  forall p,
    verbosity (m p).2 = verbosity p
    /\ (verbosity p < 1 -> stderr (m p).2 = stderr p).

(** The name space the helper's configuration keys live in. *)
Definition config_prefix : string := "azureclicredentialhelper.".

(** The override a configuration key contributes to the table filled
    from the keys ending with [suffix]: the key without the name space
    and the suffix, and the key's value, unless either is empty. *)
Definition override_entry (git : Configs) (suffix key : string)
    : option (string * string) :=
  if HasSuffix key suffix then
    let urlPart := TrimSuffix (TrimPrefix key config_prefix) suffix in
    if String.eqb urlPart "" then None
    else if String.eqb (Configs_Get git key) "" then None
         else Some (urlPart, Configs_Get git key)
  else None.

(** The overrides of a configuration under [suffix], in the order of
    its keys. *)
Definition override_entries (git : Configs) (suffix : string) : list (string * string) :=
  omap (override_entry git suffix) (Configs_List git config_prefix).

(** The table they make, a later entry replacing an earlier one. *)
Definition overrides_of (git : Configs) (suffix : string) : gmap string string :=
  fold_left (fun m kv => <[kv.1 := kv.2]> m) (override_entries git suffix) ∅.

(** A broker event that is a token request. *)
Definition is_token_request (ev : BrokerEvent) : Prop :=
  exists opts res, ev = GetTokenEvent opts res.

(** The test [checkNetrcForDomains] makes of a lower-cased host
    against a domain. *)
Definition netrc_match {U : Unicode} (host domain : string) : bool :=
  String.eqb host (ToLower domain) || HasSuffix host ("." ++ ToLower domain).

(** The hosts one line of [.netrc] reports, by its fields: after each
    [machine] that is not the last field, the next field lower-cased,
    once for every domain it matches. *)
Definition netrc_line_hosts {U : Unicode} (fields domains : list string) : list string :=
  flat_map (fun i =>
    if String.eqb (nth i fields "") "machine"
    then map (fun _ => ToLower (nth (i + 1) fields ""))
           (List.filter (netrc_match (ToLower (nth (i + 1) fields ""))) domains)
    else []) (seq 0 (length fields - 1)).

(** The hosts a [.netrc] file reports, blank lines and comment lines
    left out. *)
Definition netrc_hosts {U : Unicode} {F : UnicodeFields}
    (file domains : list string) : list string :=
  flat_map (fun text =>
    let line := TrimSpace text in
    if String.eqb line "" || HasPrefix line "#" then []
    else netrc_line_hosts (Fields line) domains) file.

(** What [checkNetrcForDomains] finds on the system [os]: nothing when
    the home directory is not known or [.netrc] does not open. *)
Definition netrc_found {U : Unicode} {F : UnicodeFields}
    (os : OS) (domains : list string) : list string :=
  match os_UserHomeDir os with
  | Err _ => []
  | Ok home =>
      match os_Open os (filepath_Join os home ".netrc") with
      | Err _ => []
      | Ok file => netrc_hosts file domains
      end
  end.

(** The warning [init] writes to standard error about the hosts found
    in [.netrc]: nothing when there is none. *)
Definition netrc_warning (hosts : list string) : string :=
  match hosts with
  | [] => ""
  | _ =>
      String "010" "⚠️  WARNING: Found entries in ~/.netrc that may conflict with this credential helper:"
      ++ String "010" ""
      ++ unlines (map (fun host => "   - " ++ host) hosts)
      ++ String "010" "Please remove these entries from ~/.netrc to avoid authentication conflicts."
      ++ String "010" (String "010" "")
  end.

(** The arguments of the two [git] runs of [init]. *)
Definition set_cache_helper : list string :=
  ["config"; "--global"; "--replace-all"; "credential.helper"; "cache"].

Definition add_this_helper (exePath : string) : list string :=
  ["config"; "--global"; "--add"; "credential.helper"; exePath].

(** The process after one [runGitConfig]: the debug line, then what
    the child wrote. *)
Definition after_git (run : ChildRun) (args : list string) (p : Process) : Process :=
  write_stderr (child_stderr run)
    (write_stdout (child_stdout run)
       (debug_state 1 ("Running: git " ++ Join args " ") p)).

(** Two systems that differ at most in the home directory and the
    files that open. *)
Definition same_but_files (os os' : OS) : Prop :=
  os_Executable os' = os_Executable os
  /\ (forall exe, filepath_EvalSymlinks os' exe = filepath_EvalSymlinks os exe)
  /\ (forall log args, exec_git os' log args = exec_git os log args).

(** The two [git] runs of [init] on the system [os]: the first, and
    the second as it follows the first. *)
Definition first_run (os : OS) : ChildRun := exec_git os [] set_cache_helper.

Definition second_run (os : OS) (exePath : string) : ChildRun :=
  exec_git os [set_cache_helper] (add_this_helper exePath).

(** * Worked inputs *)

(** Unicode tables that leave every string as it is; the runs below
    are ASCII and never consult them. *)
Definition no_unicode : Unicode :=
  {| unicode_ToLower := fun s => s; unicode_TrimSpace := fun s => s |}.

(** A configuration with no entry under the helper's name space. *)
Definition empty_config : Configs :=
  {| Configs_GetAll := fun _ => []; Configs_List := fun _ => [];
     Configs_Get := fun _ => "" |}.

Definition sample_token : AccessToken :=
  {| Token := "eyJ0eXAi";
     ExpiresOn := {| Unix := 1700000000;
                     Time_String := "2023-11-14 22:13:20 +0000 UTC" |} |}.

(** A broker with an active session for every scope. *)
Definition signed_in : Azidentity :=
  {| AzureCLICredential := unit;
     NewAzureCLICredential := fun _ _ => Ok tt;
     GetToken := fun _ _ _ => Ok sample_token |}.

(** A broker that knows the audience [https://example.org/foo/] only. *)
Definition realm_only : Azidentity :=
  {| AzureCLICredential := unit;
     NewAzureCLICredential := fun _ _ => Ok tt;
     GetToken := fun _ _ opts =>
       match Scopes opts with
       | [scope] => if String.eqb scope "https://example.org/foo/.default"
                    then Ok sample_token
                    else Err "AADSTS500011: resource principal not found"
       | _ => Err "exactly one scope is required"
       end |}.

(** A broker whose tokens carry no expiry. *)
Definition no_expiry : Azidentity :=
  {| AzureCLICredential := unit;
     NewAzureCLICredential := fun _ _ => Ok tt;
     GetToken := fun _ _ _ =>
       Ok {| Token := "eyJ0eXAi";
             ExpiresOn := {| Unix := 0; Time_String := "0001-01-01 00:00:00 +0000 UTC" |} |} |}.

(** A broker that refuses every tenant identifier. *)
Definition rejects_tenant : Azidentity :=
  {| AzureCLICredential := unit;
     NewAzureCLICredential := fun _ opts =>
       match opts with
       | Some _ => Err "invalid tenantID"
       | None => Ok tt
       end;
     GetToken := fun _ _ _ => Ok sample_token |}.

(** A configuration with one tenant override, for [dev.azure.com]. *)
Definition tenant_config : Configs :=
  {| Configs_GetAll := fun _ => [];
     Configs_List := fun _ => ["azureclicredentialhelper.dev.azure.com.tenant"];
     Configs_Get := fun key =>
       if String.eqb key "azureclicredentialhelper.dev.azure.com.tenant"
       then "contoso tenant" else "" |}.

(** A configuration with one resource override, for [dev.azure.com]. *)
Definition resource_config : Configs :=
  {| Configs_GetAll := fun _ => [];
     Configs_List := fun _ => ["azureclicredentialhelper.dev.azure.com.resource"];
     Configs_Get := fun key =>
       if String.eqb key "azureclicredentialhelper.dev.azure.com.resource"
       then "https://microsoft.onmicrosoft.com/AKSGoProxyMSFT" else "" |}.

(** A configuration whose allowed-domain entries are all blank. *)
Definition blank_domains_config : Configs :=
  {| Configs_GetAll := fun key =>
       if String.eqb key "azureclicredentialhelper.alloweddomain"
       then ["   "; ""] else [];
     Configs_List := fun _ => [];
     Configs_Get := fun _ => "" |}.

Definition bearer_challenge : string :=
  "Bearer realm=" ++ String dquote "https://example.org/foo" ++ String dquote "".

Definition devops_request : list string :=
  ["protocol=https"; "host=dev.azure.com"; "wwwauth[]=" ++ bearer_challenge; ""].

Definition ftp_request : list string :=
  ["protocol=ftp"; "host=dev.azure.com"; ""].

Definition foreign_request : list string :=
  ["protocol=https"; "host=example.com"; ""].

Definition ftp_data : gmap string string :=
  {[ "protocol" := "ftp"; "host" := "dev.azure.com" ]}.

Definition foreign_data : gmap string string :=
  {[ "protocol" := "https"; "host" := "example.com" ]}.

Definition devops_data : gmap string string :=
  {[ "protocol" := "https"; "host" := "dev.azure.com" ]}.

(** [strings.Fields] for inputs that are ASCII throughout. *)
Definition no_unicode_fields : UnicodeFields :=
  {| unicode_Fields := fun s => [s] |}.

Definition silent_success : ChildRun :=
  {| child_stdout := ""; child_stderr := ""; child_err := None |}.

(** A system where the helper is installed under [/usr/local/bin],
    [.netrc] has an entry for Azure DevOps and one for another site,
    and [git config] succeeds. *)
Definition with_netrc : OS :=
  {| os_UserHomeDir := Ok "/home/dev";
     filepath_Join := fun dir name => dir ++ "/" ++ name;
     os_Open := fun path =>
       if String.eqb path "/home/dev/.netrc"
       then Ok ["# work";
                "machine Dev.Azure.com login dev password secret";
                "";
                "  machine example.org login dev"]
       else Err ("open " ++ path ++ ": no such file or directory");
     os_IsNotExist := fun _ => true;
     os_Executable := Ok "/usr/local/bin/git-credential-azure-cli";
     filepath_EvalSymlinks := fun path => Ok path;
     filepath_Dir := fun _ => "/usr/local/bin";
     exec_git := fun _ _ => silent_success |}.

(** The same system without a home directory. *)
Definition without_home : OS :=
  {| os_UserHomeDir := Err "$HOME is not defined";
     filepath_Join := filepath_Join with_netrc;
     os_Open := os_Open with_netrc;
     os_IsNotExist := os_IsNotExist with_netrc;
     os_Executable := os_Executable with_netrc;
     filepath_EvalSymlinks := filepath_EvalSymlinks with_netrc;
     filepath_Dir := filepath_Dir with_netrc;
     exec_git := exec_git with_netrc |}.

(** A line of 65536 bytes, and a request that has it as value of
    [path] before its [host] line. *)
Definition long_line : string := N.iter 16 (fun s => s ++ s) "x".

Definition long_line_request : string :=
  "protocol=https" ++ String "010" ("path=" ++ long_line)
  ++ String "010" "host=dev.azure.com" ++ String "010" (String "010" "").

(** The request for Azure DevOps as a stream, with the line ends git
    for Windows may write. *)
Definition devops_stream : string :=
  "protocol=https" ++ String "013" (String "010" "host=dev.azure.com")
  ++ String "010" (String "010" "host=late").

(** * Properties *)

(** ** Facts about the string library *)

Lemma string_app_cons (a : ascii) (s t : string) :
  String a s ++ t = String a (s ++ t).
Proof. reflexivity. Qed.

Lemma string_app_nil_r (s : string) : s ++ "" = s.
Proof. induction s as [|a s IH]; [reflexivity|]. now rewrite string_app_cons, IH. Qed.

Lemma string_app_assoc (s t u : string) : (s ++ t) ++ u = s ++ t ++ u.
Proof.
  induction s as [|a s IH]; [reflexivity|].
  now rewrite !string_app_cons, IH.
Qed.

Lemma string_length_app (s t : string) :
  String.length (s ++ t) = (String.length s + String.length t)%nat.
Proof.
  induction s as [|a s IH]; [reflexivity|].
  rewrite string_app_cons. simpl. now rewrite IH.
Qed.

Lemma string_drop_app (s t : string) : string_drop (String.length s) (s ++ t) = t.
Proof. induction s as [|a s IH]; [reflexivity|]. now rewrite string_app_cons. Qed.

Lemma string_take_app (s t : string) : string_take (String.length s) (s ++ t) = s.
Proof.
  induction s as [|a s IH]; [reflexivity|].
  rewrite string_app_cons. simpl. now rewrite IH.
Qed.

Lemma string_take_drop (n : nat) (s : string) :
  string_take n s ++ string_drop n s = s.
Proof.
  revert s. induction n as [|n IH]; intros [|a s]; try reflexivity.
  simpl. now rewrite string_app_cons, IH.
Qed.

Lemma string_app_inv_r (s t u : string) : s ++ u = t ++ u -> s = t.
Proof.
  intros E.
  assert (L : String.length s = String.length t).
  { apply (f_equal String.length) in E. rewrite !string_length_app in E. lia. }
  apply (f_equal (string_take (String.length s))) in E.
  rewrite string_take_app in E. rewrite L in E.
  now rewrite string_take_app in E.
Qed.

Lemma HasPrefix_spec (s pre : string) :
  HasPrefix s pre = true <-> exists r, s = pre ++ r.
Proof.
  revert s. induction pre as [|a pre IH]; intros s; simpl.
  - split; [intros _; now exists s | reflexivity].
  - destruct s as [|b s].
    + split; [discriminate | intros [r E]; discriminate].
    + destruct (Ascii.eqb_spec a b) as [->|N].
      * rewrite IH. split; intros [r E]; exists r.
        -- now rewrite string_app_cons, E.
        -- rewrite string_app_cons in E. now injection E.
      * split; [discriminate|]. intros [r E].
        rewrite string_app_cons in E. injection E as E1 _. congruence.
Qed.

Lemma HasSuffix_spec (s suffix : string) :
  HasSuffix s suffix = true <-> exists pre, s = pre ++ suffix.
Proof.
  unfold HasSuffix. rewrite andb_true_iff, Nat.leb_le, String.eqb_eq. split.
  - intros [_ E]. exists (string_take (String.length s - String.length suffix) s).
    set (n := (String.length s - String.length suffix)%nat) in *.
    rewrite <- E. symmetry. apply string_take_drop.
  - intros [pre ->]. rewrite string_length_app. split; [lia|].
    replace (String.length pre + String.length suffix - String.length suffix)%nat
      with (String.length pre) by lia.
    apply string_drop_app.
Qed.

Lemma HasSuffix_false (s suffix : string) :
  HasSuffix s suffix = false <-> ~ exists pre, s = pre ++ suffix.
Proof.
  rewrite <- HasSuffix_spec. destruct (HasSuffix s suffix); split; congruence.
Qed.

Example FindStringSubmatch_bearer :
  FindStringSubmatch ("Bearer realm=" ++ String dquote "https://example.org/foo"
                        ++ String dquote ", x=1")
  = ["realm=" ++ String dquote "https://example.org/foo" ++ String dquote "";
     "https://example.org/foo"].
Proof. reflexivity. Qed.

Example run_devops_signed_in :
  let '(code, p) := run_get (U := no_unicode) empty_config signed_in devops_request 0 in
  code = 0 /\
  stdout p = "authtype=bearer" ++ String "010" "username=null"
             ++ String "010" "password=eyJ0eXAi"
             ++ String "010" "password_expiry_utc=1700000000" ++ String "010" "" /\
  stderr p = "".
Proof. vm_compute. auto. Qed.

Example run_devops_realm_only :
  let '(code, p) := run_get (U := no_unicode) empty_config realm_only devops_request 0 in
  code = 0 /\
  brokerLog p =
    [NewCredentialEvent None None;
     GetTokenEvent {| Scopes := ["https://dev.azure.com/.default"] |}
       (Err "AADSTS500011: resource principal not found");
     GetTokenEvent {| Scopes := ["https://example.org/foo/.default"] |}
       (Ok sample_token)].
Proof. vm_compute. auto. Qed.

Example run_tenant_rejected :
  let '(code, p) :=
    run_get (U := no_unicode) tenant_config rejects_tenant devops_request 1 in
  code = 1 /\ stdout p = "" /\
  stderr p = "[DEBUG] Handling get request for https://dev.azure.com"
             ++ String "010" "[DEBUG] Using tenant override: contoso tenant"
             ++ String "010" "[DEBUG] Failed to create Azure CLI credential: invalid tenantID"
             ++ String "010" "".
Proof. vm_compute. auto. Qed.

(** ** The domain matcher *)

Lemma isAllowedHost_nil {U : Unicode} (h : string) : isAllowedHost h [] = false.
Proof. reflexivity. Qed.

Lemma isAllowedHost_cons {U : Unicode} (h d : string) (D : list string) :
  isAllowedHost h (d :: D) =
  (String.eqb (ToLower h) (ToLower d) || HasSuffix (ToLower h) ("." ++ ToLower d))
  || isAllowedHost h D.
Proof.
  unfold isAllowedHost at 1. cbv zeta.
  destruct (String.eqb (ToLower h) (ToLower d) || HasSuffix (ToLower h) ("." ++ ToLower d));
    reflexivity.
Qed.

(** C2. [isAllowedHost h D] holds exactly when some domain [d] of [D]
    is such that, both lower-cased, [h] equals [d] or [h] ends with a
    dot followed by [d]; [msazure.visualstudio.com] is allowed under
    [visualstudio.com] and [notvisualstudio.com] is not. *)
Theorem isAllowedHost_iff {U : Unicode} :
  (forall (h : string) (D : list string),
      isAllowedHost h D = true <->
      exists d, In d D /\
                (ToLower h = ToLower d \/ EndsWith (ToLower h) ("." ++ ToLower d)))
  /\ isAllowedHost "msazure.visualstudio.com" ["visualstudio.com"] = true
  /\ isAllowedHost "notvisualstudio.com" ["visualstudio.com"] = false.
Proof.
  split; [|split; reflexivity].
  intros h D. induction D as [|d D IH].
  - rewrite isAllowedHost_nil. split; [discriminate | intros (d & [] & _)].
  - rewrite isAllowedHost_cons, !orb_true_iff, IH, String.eqb_eq, HasSuffix_spec.
    unfold EndsWith. split.
    + intros [[E|E]|(d' & I & E)].
      * exists d. split; [now left | now left].
      * exists d. split; [now left | now right].
      * exists d'. split; [now right | exact E].
    + intros (d' & [<-|I] & E).
      * left. exact E.
      * right. now exists d'.
Qed.

(** ** The override resolver *)

(** C3. [getResourceForHost] returns the entry under the full-URL key
    when there is one (also when the bare host has an entry too), else
    the entry under the bare-host key, else the URL followed by a
    slash; with an empty table, [https] and [dev.azure.com] give
    [https://dev.azure.com/]. *)
Theorem getResourceForHost_precedence :
  (forall (table : gmap string string) (p h r : string),
      table !! (p ++ "://" ++ h) = Some r -> getResourceForHost table p h = r)
  /\ (forall (table : gmap string string) (p h r : string),
      table !! (p ++ "://" ++ h) = None -> table !! h = Some r ->
      getResourceForHost table p h = r)
  /\ (forall (table : gmap string string) (p h : string),
      table !! (p ++ "://" ++ h) = None -> table !! h = None ->
      getResourceForHost table p h = (p ++ "://" ++ h) ++ "/")
  /\ (forall (table : gmap string string) (p h full bare : string),
      getResourceForHost (<[p ++ "://" ++ h := full]> (<[h := bare]> table)) p h = full)
  /\ getResourceForHost ∅ "https" "dev.azure.com" = "https://dev.azure.com/".
Proof.
  unfold getResourceForHost. repeat split.
  - intros table p h r ->. reflexivity.
  - intros table p h r -> ->. reflexivity.
  - intros table p h -> ->. reflexivity.
  - intros table p h full bare. now rewrite lookup_insert_eq.
Qed.

(** ** The token acquirer *)

Lemma scopeOf_eq (r : string) :
  scopeOf r = (if HasSuffix r "/" then r else r ++ "/") ++ ".default".
Proof. unfold scopeOf. now destruct (HasSuffix r "/"). Qed.

(** C4, as stated, fails on a resource that already ends with two
    slashes: nothing is removed. *)
Lemma single_slash_scope_fails : ~ single_slash_scope "https://example.org//".
Proof.
  intros (r' & E & _ & N). apply N.
  change (scopeOf "https://example.org//") with ("https://example.org//" ++ ".default") in E.
  apply string_app_inv_r in E. subst r'. now exists "https://example.org".
Qed.

Lemma scopeOf_slash (r : string) :
  exists r', r' = (if HasSuffix r "/" then r else r ++ "/")
             /\ EndsWith r' "/"
             /\ (~ EndsWith r "//" -> ends_with_one_slash r')
             /\ scopeOf r = r' ++ ".default".
Proof.
  exists (if HasSuffix r "/" then r else r ++ "/").
  split; [reflexivity|]. split; [|split; [|apply scopeOf_eq]].
  - destruct (HasSuffix r "/") eqn:S.
    + now apply HasSuffix_spec in S.
    + now exists r.
  - destruct (HasSuffix r "/") eqn:S.
    + apply HasSuffix_spec in S. intros N. now split.
    + apply HasSuffix_false in S.
      intros _. split; [now exists r|]. intros [pre E].
      apply S. exists pre.
      change "//" with ("/" ++ "/") in E. rewrite <- string_app_assoc in E.
      now apply string_app_inv_r in E.
Qed.

(** ** Running the process monad *)

Lemma bind_run {A B : Type} (m : M A) (f : A -> M B) (p : Process) :
  (m ≫= f) p =
  match m p with
  | (Returned a, p') => f a p'
  | (Exited code, p') => (Exited code, p')
  end.
Proof. reflexivity. Qed.

Lemma debugf_run (level : Z) (msg : string) (p : Process) :
  debugf level msg p = (Returned tt, debug_state level msg p).
Proof.
  unfold debugf, debug_state. rewrite bind_run. unfold gets.
  now destruct (verbosity p >=? level).
Qed.

Arguments debugf : simpl never.

Lemma debug_only_refl (p : Process) : debug_only p p.
Proof. unfold debug_only. tauto. Qed.

Lemma debug_only_trans (p q r : Process) :
  debug_only p q -> debug_only q r -> debug_only p r.
Proof.
  unfold debug_only. intros (V & A & R & T & O & B & E) (V' & A' & R' & T' & O' & B' & E').
  repeat split; try congruence.
  intros L. rewrite E', E; [reflexivity | exact L | lia].
Qed.

Lemma debug_only_tables (p q : Process) : debug_only p q -> tables_only p q.
Proof. unfold debug_only, tables_only. tauto. Qed.

Lemma tables_only_refl (p : Process) : tables_only p p.
Proof. unfold tables_only. tauto. Qed.

Lemma tables_only_trans (p q r : Process) :
  tables_only p q -> tables_only q r -> tables_only p r.
Proof.
  unfold tables_only. intros (V & A & O & B & E) (V' & A' & O' & B' & E').
  repeat split; try congruence.
  intros L. rewrite E', E; [reflexivity | exact L | lia].
Qed.

Lemma debug_state_only (level : Z) (msg : string) (p : Process) :
  1 <= level -> debug_only p (debug_state level msg p).
Proof.
  intros L. unfold debug_state, debug_only.
  destruct (verbosity p >=? level) eqn:V; simpl; repeat split; try reflexivity.
  intros Q. apply Z.geb_le in V. lia.
Qed.

Lemma set_resourceOverrides_tables (m : gmap string string) (p : Process) :
  tables_only p (set_resourceOverrides m p).
Proof. unfold tables_only. simpl. tauto. Qed.

Lemma set_tenantOverrides_tables (m : gmap string string) (p : Process) :
  tables_only p (set_tenantOverrides m p).
Proof. unfold tables_only. simpl. tauto. Qed.

(** A loop whose body keeps an invariant keeps it, and returns. *)
Lemma for_range_inv {A : Type} (I : Process -> Prop) (body : A -> M unit) :
  (forall x q, I q -> exists q', body x q = (Returned tt, q') /\ I q') ->
  forall (l : list A) (p : Process),
    I p -> exists p', for_range l body p = (Returned tt, p') /\ I p'.
Proof.
  intros Step l. induction l as [|x l IH]; intros p Ip.
  - exists p. now split.
  - simpl. rewrite bind_run. destruct (Step x p Ip) as (q & -> & Iq).
    apply IH, Iq.
Qed.

Lemma post_bind {A B : Type} (m : M A) (f : A -> M B) (p : Process)
    (Q : Outcome B -> Process -> Prop) :
  post m p (fun o p' => match o with
                        | Returned a => post (f a) p' Q
                        | Exited code => Q (Exited code) p'
                        end) ->
  post (m ≫= f) p Q.
Proof. unfold post. rewrite bind_run. now destruct (m p) as [[a|code] p']. Qed.

Lemma post_ret {A : Type} (a : A) (p : Process) (Q : Outcome A -> Process -> Prop) :
  Q (Returned a) p -> post (mret a) p Q.
Proof. exact (fun H => H). Qed.

Lemma post_gets {A : Type} (f : Process -> A) (p : Process)
    (Q : Outcome A -> Process -> Prop) :
  Q (Returned (f p)) p -> post (gets f) p Q.
Proof. exact (fun H => H). Qed.

Lemma post_modify (f : Process -> Process) (p : Process)
    (Q : Outcome unit -> Process -> Prop) :
  Q (Returned tt) (f p) -> post (modify f) p Q.
Proof. exact (fun H => H). Qed.

Lemma post_exit {A : Type} (code : Z) (p : Process) (Q : Outcome A -> Process -> Prop) :
  Q (Exited code) p -> post (os_Exit code) p Q.
Proof. exact (fun H => H). Qed.

Lemma post_debugf (level : Z) (msg : string) (p : Process)
    (Q : Outcome unit -> Process -> Prop) :
  Q (Returned tt) (debug_state level msg p) -> post (debugf level msg) p Q.
Proof. unfold post. now rewrite debugf_run. Qed.

Lemma post_returned {A : Type} (m : M A) (p p' : Process) (a : A)
    (Q : Outcome A -> Process -> Prop) :
  m p = (Returned a, p') -> Q (Returned a) p' -> post m p Q.
Proof. unfold post. now intros ->. Qed.

(** Unfold the monad's operations where they are applied to a state. *)
Ltac exec :=
  repeat first [ rewrite bind_run | rewrite debugf_run
               | progress unfold gets, modify, os_Exit, mret, M_ret
               | progress simpl ].

Lemma post_eq {A : Type} (m : M A) (p : Process) (x : Outcome A * Process)
    (Q : Outcome A -> Process -> Prop) :
  m p = x -> Q x.1 x.2 -> post m p Q.
Proof. unfold post. now intros ->. Qed.

Lemma post_conseq {A : Type} (m : M A) (p : Process)
    (Q Q' : Outcome A -> Process -> Prop) :
  post m p Q -> (forall o p', Q o p' -> Q' o p') -> post m p Q'.
Proof. unfold post. auto. Qed.

(** One step of the computation under [post], by its head. *)
Ltac run_step :=
  lazymatch goal with
  | |- post (debugf _ _) _ _ => apply post_debugf
  | |- post (mret _) _ _ => apply post_ret
  | |- post (gets _) _ _ => apply post_gets
  | |- post (modify _) _ _ => apply post_modify
  | |- post (os_Exit _) _ _ => apply post_exit
  | |- post (_ ≫= _) _ _ => apply post_bind
  end.

Ltac run := repeat (run_step; cbv beta iota zeta).

(** ** Configuration loading *)

Section Loading.

Context {U : Unicode}.
Variable git : Configs.

Lemma domains_loop (domains : list string) (p : Process) :
  for_range domains (fun d =>
      let d := TrimSpace d in
      if negb (String.eqb d "")
      then ad ← gets allowedDomains; modify (set_allowedDomains (ad ++ [d])%list)
      else mret tt) p
  = (Returned tt, set_allowedDomains (allowedDomains p ++ kept_domains domains)%list p).
Proof.
  revert p. induction domains as [|d domains IH]; intros p.
  - simpl. unfold kept_domains. simpl. rewrite app_nil_r. now destruct p.
  - simpl. rewrite bind_run. unfold kept_domains. simpl.
    destruct (negb (String.eqb (TrimSpace d) "")) eqn:E.
    + rewrite bind_run. unfold gets, modify. rewrite IH. simpl.
      now rewrite <- app_assoc.
    + unfold mret, M_ret. now rewrite IH.
Qed.

Lemma overrides_loop (keys : list string) (p : Process) :
  exists p',
    for_range keys (fun key =>
      if HasSuffix key ".resource" then
        let urlPart := TrimPrefix key "azureclicredentialhelper." in
        let urlPart := TrimSuffix urlPart ".resource" in
        if negb (String.eqb urlPart "") then
          let resource := Configs_Get git key in
          if negb (String.eqb resource "") then
            ro ← gets resourceOverrides;
            modify (set_resourceOverrides (<[urlPart := resource]> ro)) ;;
            debugf 2 ("Loaded resource override: " ++ urlPart ++ " -> " ++ resource)
          else mret tt
        else mret tt
      else if HasSuffix key ".tenant" then
        let urlPart := TrimPrefix key "azureclicredentialhelper." in
        let urlPart := TrimSuffix urlPart ".tenant" in
        if negb (String.eqb urlPart "") then
          let tenant := Configs_Get git key in
          if negb (String.eqb tenant "") then
            to ← gets tenantOverrides;
            modify (set_tenantOverrides (<[urlPart := tenant]> to)) ;;
            debugf 2 ("Loaded tenant override: " ++ urlPart ++ " -> " ++ tenant)
          else mret tt
        else mret tt
      else mret tt) p = (Returned tt, p')
    /\ tables_only p p'.
Proof.
  apply (for_range_inv (tables_only p)); [|apply tables_only_refl].
  intros key q Iq. cbv zeta.
  repeat match goal with
         | |- context [if ?b then _ else _] => destruct b
         end;
    try (exists q; split; [reflexivity | exact Iq]).
  - exec.
    eexists. split; [reflexivity|].
    eapply tables_only_trans; [exact Iq|].
    eapply tables_only_trans; [apply set_resourceOverrides_tables|].
    apply debug_only_tables, debug_state_only. lia.
  - exec.
    eexists. split; [reflexivity|].
    eapply tables_only_trans; [exact Iq|].
    eapply tables_only_trans; [apply set_tenantOverrides_tables|].
    apply debug_only_tables, debug_state_only. lia.
Qed.

Lemma loadConfig_run (p : Process) :
  exists p',
    loadConfig git p = (Returned tt, p')
    /\ verbosity p' = verbosity p
    /\ stdout p' = stdout p
    /\ brokerLog p' = brokerLog p
    /\ (verbosity p < 1 -> stderr p' = stderr p)
    /\ allowedDomains p' = loaded_domains git (allowedDomains p).
Proof.
  unfold loadConfig, loaded_domains. cbv zeta.
  match goal with
  | |- context [for_range (Configs_List git ?k) ?body] =>
      set (loop := for_range (Configs_List git k) body)
  end.
  assert (Loop : forall q, exists p', loop q = (Returned tt, p') /\ tables_only q p').
  { intros q. apply overrides_loop. }
  clearbody loop.
  rewrite bind_run, debugf_run, bind_run.
  set (domains := Configs_GetAll git "azureclicredentialhelper.alloweddomain").
  pose proof (debug_state_only 2 "Loading git configuration" p ltac:(lia))
    as (V0 & A0 & _ & _ & O0 & B0 & E0).
  set (p0 := debug_state 2 "Loading git configuration" p) in *.
  destruct (length domains =? 0)%nat eqn:L.
  - exec.
    match goal with
    | |- context [loop ?q] => destruct (Loop q) as (p' & -> & V & A & O & B & E)
    end.
    exists p'. split; [reflexivity|].
    pose proof (debug_state_only 2
      ("Using default allowed domains: " ++ fmt_v_strings defaultAllowedDomains)
      (set_allowedDomains defaultAllowedDomains p0) ltac:(lia))
      as (V1 & A1 & _ & _ & O1 & B1 & E1).
    simpl in *. rewrite V, A, O, B, V1, A1, O1, B1.
    repeat split; try assumption.
    intros Q. rewrite E, E1, E0; [reflexivity|lia..].
  - rewrite bind_run.
    pose proof (domains_loop domains p0) as D. cbv zeta in D. rewrite D. clear D.
    rewrite A0.
    set (ad := (allowedDomains p ++ kept_domains domains)%list).
    exec. fold ad.
    destruct (length ad =? 0)%nat eqn:K; exec;
      match goal with
      | |- context [loop ?q] => destruct (Loop q) as (p' & -> & V & A & O & B & E)
      end;
      (exists p'; split; [reflexivity|]);
      match type of V with
      | context [debug_state ?l ?m ?q] =>
          pose proof (debug_state_only l m q ltac:(lia))
            as (V1 & A1 & _ & _ & O1 & B1 & E1)
      end;
      simpl in *; rewrite V, A, O, B, V1, A1, O1, B1;
      (repeat split; try assumption);
      intros Q; rewrite E, E1, E0; (reflexivity || lia).
Qed.

End Loading.

(** C10. From the process as it starts, [loadConfig] returns with a
    non-empty allowed-domain list: the configured entries trimmed and
    the empty ones dropped or, when nothing is left of them (no entry
    configured, or every entry blank), the two default domains. *)
Theorem loadConfig_allowedDomains {U : Unicode} (git : Configs) (v : Z) :
  exists p,
    loadConfig git (start v) = (Returned tt, p)
    /\ allowedDomains p <> []
    /\ allowedDomains p =
       match kept_domains (Configs_GetAll git "azureclicredentialhelper.alloweddomain") with
       | [] => ["visualstudio.com"; "dev.azure.com"]
       | kept => kept
       end.
Proof.
  destruct (loadConfig_run git (start v)) as (p & E & _ & _ & _ & _ & A).
  exists p. split; [exact E|].
  assert (A' : allowedDomains p =
               match kept_domains (Configs_GetAll git "azureclicredentialhelper.alloweddomain") with
               | [] => ["visualstudio.com"; "dev.azure.com"]
               | kept => kept
               end).
  { rewrite A. unfold loaded_domains. simpl.
    destruct (Configs_GetAll git "azureclicredentialhelper.alloweddomain") as [|d ds];
      [reflexivity|].
    destruct (kept_domains (d :: ds)); reflexivity. }
  split; [|exact A'].
  rewrite A'.
  destruct (kept_domains (Configs_GetAll git "azureclicredentialhelper.alloweddomain"));
    discriminate.
Qed.

Example loadConfig_blank_entries :
  allowedDomains (loadConfig (U := no_unicode) blank_domains_config (start 0)).2
  = ["visualstudio.com"; "dev.azure.com"].
Proof. reflexivity. Qed.

(** ** The request parser *)

Lemma cut_line_some (line k v : string) :
  cut_line line = Some (k, v) <-> line = k ++ "=" ++ v /\ ~ occurs "=" k.
Proof.
  revert k. induction line as [|c rest IH]; intros k; simpl.
  - split; [discriminate|]. intros [E _]. destruct k; discriminate.
  - destruct (Ascii.eqb_spec c "=") as [->|N].
    + split.
      * intros [= <- <-]. split; [reflexivity|]. intros (a & b & E). destruct a; discriminate.
      * intros [E O]. destruct k as [|c' k'].
        -- now injection E as ->.
        -- rewrite string_app_cons in E. injection E as <- _.
           exfalso. apply O. now exists "", k'.
    + destruct (cut_line rest) as [[k' v']|] eqn:C.
      * split.
        -- intros [= <- <-]. destruct (proj1 (IH k') eq_refl) as [E O].
           split; [now rewrite string_app_cons, <- E|].
           intros (a & b & E'). destruct a as [|a0 a].
           ++ injection E' as E' _. congruence.
           ++ rewrite string_app_cons in E'. injection E' as _ E'.
              apply O. now exists a, b.
        -- intros [E O]. destruct k as [|c' k''].
           ++ injection E as E _. congruence.
           ++ rewrite string_app_cons in E. injection E as <- E.
              assert (C' : Some (k', v') = Some (k'', v)).
              { apply IH. split; [exact E|]. intros (a & b & ->).
                apply O. exists (String c a), b. now rewrite string_app_cons. }
              now injection C' as -> ->.
      * split; [discriminate|]. intros [E O]. destruct k as [|c' k''].
        -- injection E as E _. congruence.
        -- rewrite string_app_cons in E. injection E as <- E.
           assert (C' : None = Some (k'', v)); [|discriminate].
           apply IH. split; [exact E|]. intros (a & b & ->).
           apply O. exists (String c a), b. now rewrite string_app_cons.
Qed.

Lemma cut_line_none (line : string) :
  cut_line line = None <-> ~ occurs "=" line.
Proof.
  induction line as [|c rest IH]; simpl.
  - split; [|reflexivity]. intros _ (a & b & E). destruct a; discriminate.
  - destruct (Ascii.eqb_spec c "=") as [->|N].
    + split; [discriminate|]. intros O. exfalso. apply O. now exists "", rest.
    + destruct (cut_line rest) as [[k v]|].
      * split; [discriminate|]. intros O. exfalso.
        assert (R : ~ occurs "=" rest).
        { intros (a & b & ->). apply O. exists (String c a), b.
          now rewrite string_app_cons. }
        apply IH in R. discriminate.
      * split; [|reflexivity]. intros _ (a & b & E). destruct a as [|a0 a].
        -- injection E as E _. congruence.
        -- rewrite string_app_cons in E. injection E as _ E.
           apply (proj1 IH eq_refl). now exists a, b.
Qed.

(** [strings.Index] and the slices of [parseInput] cut the line
    where [cut_line] does. *)
Lemma Index_cut_line (line : string) :
  match cut_line line with
  | Some (k, v) =>
      Index line "=" = Z.of_nat (String.length k)
      /\ string_take (String.length k) line = k
      /\ string_drop (S (String.length k)) line = v
  | None => Index line "=" = -1
  end.
Proof.
  induction line as [|c rest IH]; [reflexivity|].
  cbn [cut_line Index HasPrefix]. rewrite (Ascii.eqb_sym "=" c).
  destruct (Ascii.eqb c "=").
  - now destruct rest.
  - replace (if false then HasPrefix rest "" else false) with false by reflexivity.
    cbv iota.
    destruct (cut_line rest) as [[k v]|].
    + destruct IH as (I & T & D). rewrite I.
      replace (Z.of_nat (String.length k) =? -1) with false
        by (symmetry; apply Z.eqb_neq; lia).
      cbn [String.length string_take string_drop]. rewrite T.
      split; [lia | split; [reflexivity | exact D]].
    + now rewrite IH.
Qed.

Section Parsing.

Context {U : Unicode}.

Lemma pairs_read_cons (text : string) (rest : list string) :
  pairs_read (text :: rest) =
  if String.eqb (TrimSpace text) "" then []
  else match cut_line (TrimSpace text) with
       | Some kv => kv :: pairs_read rest
       | None => pairs_read rest
       end.
Proof.
  unfold pairs_read. cbn [lines_read].
  destruct (String.eqb (TrimSpace text) ""); [reflexivity|].
  cbn [omap list_omap]. now destruct (cut_line (TrimSpace text)).
Qed.

(** The loop of [parseInput] computes the attributes and headers of
    the lines it is given, on top of those it starts from, and writes
    debug output only. *)
Lemma parseInput_loop_run (lines : list string) :
  forall (data : gmap string string) (wwwauth : list string) (p : Process),
  exists p',
    parseInput_loop lines data wwwauth p
    = (Returned (fold_left (fun m kv => <[kv.1 := kv.2]> m) (request_pairs lines) data,
                 (wwwauth ++ request_headers lines)%list), p')
    /\ debug_only p p'.
Proof.
  induction lines as [|text rest IH]; intros data wwwauth p.
  - exists p. split; [|apply debug_only_refl].
    unfold request_headers, request_pairs. simpl. now rewrite app_nil_r.
  - unfold request_headers, request_pairs. rewrite pairs_read_cons.
    cbn [parseInput_loop]. cbv zeta.
    destruct (String.eqb (TrimSpace text) "") eqn:B.
    { exists p. split; [|apply debug_only_refl]. simpl. now rewrite app_nil_r. }
    pose proof (Index_cut_line (TrimSpace text)) as C.
    destruct (cut_line (TrimSpace text)) as [[k v]|].
    + destruct C as (I & T & D). rewrite I.
      replace (Z.of_nat (String.length k) =? -1) with false
        by (symmetry; apply Z.eqb_neq; lia).
      replace (Z.to_nat (Z.of_nat (String.length k) + 1)) with (S (String.length k))
        by lia.
      rewrite Nat2Z.id, T, D. cbn [List.filter].
      change (is_challenge (k, v)) with (String.eqb k "wwwauth[]").
      destruct (String.eqb k "wwwauth[]") eqn:K; cbn [negb map fold_left fst snd];
        rewrite bind_run, debugf_run.
      * destruct (IH data (wwwauth ++ [v])%list
                    (debug_state 3 ("Parsed input: " ++ k ++ "=" ++ v) p))
          as (p' & -> & F).
        exists p'. split; [now rewrite <- app_assoc|].
        eapply debug_only_trans; [|exact F]. apply debug_state_only. lia.
      * destruct (IH (<[k := v]> data) wwwauth
                    (debug_state 3 ("Parsed input: " ++ k ++ "=" ++ v) p))
          as (p' & -> & F).
        exists p'. split; [reflexivity|].
        eapply debug_only_trans; [|exact F]. apply debug_state_only. lia.
    + rewrite C. cbn [Z.eqb negb]. apply IH.
Qed.

(** Writing pairs into a map in turn leaves, under each key, the
    value of the last pair with that key. *)
Lemma fold_insert_last (pairs : list (string * string)) (k v : string) :
  fold_left (fun m kv => <[kv.1 := kv.2]> m) pairs (∅ : gmap string string) !! k = Some v
  <-> exists before after,
        pairs = (before ++ (k, v) :: after)%list /\ forall v', ~ In (k, v') after.
Proof.
  induction pairs as [|[k0 v0] pairs IH] using rev_ind.
  - simpl. rewrite lookup_empty. split; [discriminate|].
    intros (before & after & E & _). destruct before; discriminate.
  - rewrite fold_left_app. cbn [fold_left fst snd].
    assert (Split : forall before after (y : string * string),
               (pairs ++ [(k0, v0)] = before ++ y :: after)%list ->
               (after = [] /\ pairs = before /\ y = (k0, v0))
               \/ exists after', after = (after' ++ [(k0, v0)])%list
                                 /\ pairs = (before ++ y :: after')%list).
    { intros before after y E.
      destruct after as [|z after'] using rev_ind.
      - left. apply app_inj_tail in E as [-> ->]. auto.
      - right. exists after'. clear IHafter'.
        change (before ++ y :: after' ++ [z])%list
          with (before ++ (y :: after') ++ [z])%list in E.
        rewrite app_assoc in E. apply app_inj_tail in E as [-> ->]. auto. }
    destruct (decide (k0 = k)) as [->|N].
    + rewrite lookup_insert_eq. split.
      * intros [= ->]. exists pairs, []. split; [reflexivity | intros v' []].
      * intros (before & after & E & L).
        apply Split in E as [(-> & _ & [= ->])|(after' & -> & _)]; [reflexivity|].
        exfalso. apply (L v0). apply in_or_app. right. now left.
    + rewrite lookup_insert_ne by exact N. rewrite IH. split.
      * intros (before & after & -> & L).
        exists before, (after ++ [(k0, v0)])%list. split.
        -- now rewrite <- app_assoc.
        -- intros v' I. apply in_app_or in I as [I|[I|[]]]; [now apply (L v')|].
           congruence.
      * intros (before & after & E & L).
        apply Split in E as [(_ & _ & [= -> ->])|(after' & -> & ->)]; [congruence|].
        exists before, after'. split; [reflexivity|].
        intros v' I. apply (L v'). apply in_or_app. now left.
Qed.

End Parsing.

Lemma lines_read_until_blank {U : Unicode} (before : list string) :
  (forall l, In l before -> TrimSpace l <> "") ->
  lines_read before = map TrimSpace before
  /\ forall blank after,
       TrimSpace blank = "" ->
       lines_read (before ++ blank :: after) = map TrimSpace before.
Proof.
  induction before as [|l before IH]; intros N.
  - split; [reflexivity|]. intros blank after B. simpl. now rewrite B.
  - destruct IH as [IH1 IH2]; [intros l' I; apply N; now right|].
    assert (L : String.eqb (TrimSpace l) "" = false).
    { apply String.eqb_neq, N. now left. }
    split.
    + simpl. now rewrite L, IH1.
    + intros blank after B. simpl. now rewrite L, IH2.
Qed.

Lemma parseInput_run {U : Unicode} (stdin : list string) (p : Process) :
  exists p',
    parseInput stdin p = (Returned (request_attributes stdin, request_headers stdin), p')
    /\ debug_only p p'.
Proof.
  unfold parseInput.
  destruct (parseInput_loop_run stdin ∅ [] p) as (p' & E & F).
  exists p'. split; [exact E | exact F].
Qed.

(** The scanner delivers the lines of the stream that come before the
    first line that does not fit its buffer. *)
Lemma Scanner_scan_spec (input : string) (n : N) :
  Scanner_scan input n =
  match raw_lines input with
  | [] => (if (MaxScanTokenSize <=? n)%N then None
           else if (n =? 0)%N then None else Some "", [])
  | line :: after =>
      if (n + N.of_nat (String.length line) <? MaxScanTokenSize)%N
      then (Some line, lines_before_long after)
      else (None, [])
  end.
Proof.
  revert n. induction input as [|c rest IH]; intros n.
  - cbn [Scanner_scan raw_lines]. now destruct (MaxScanTokenSize <=? n)%N.
  - cbn [Scanner_scan raw_lines]. destruct (Ascii.eqb c "010").
    + rewrite IH. cbn [String.length N.of_nat]. rewrite N.add_0_r.
      destruct (N.leb_spec MaxScanTokenSize n), (N.ltb_spec n MaxScanTokenSize);
        try lia; try reflexivity.
      destruct (raw_lines rest) as [|line after]; [reflexivity|].
      cbn [lines_before_long]. unfold fits. rewrite N.add_0_l.
      now destruct (N.of_nat (String.length line) <? MaxScanTokenSize)%N.
    + rewrite IH. destruct (raw_lines rest) as [|line after].
      * cbn [String.length]. change (N.of_nat 1) with 1%N.
        destruct (N.leb_spec MaxScanTokenSize n),
                 (N.leb_spec MaxScanTokenSize (n + 1)),
                 (N.ltb_spec (n + 1) MaxScanTokenSize),
                 (N.eqb_spec (n + 1) 0); try lia; reflexivity.
      * cbn [String.length]. rewrite Nat2N.inj_succ.
        destruct (N.leb_spec MaxScanTokenSize n),
                 (N.ltb_spec (n + 1 + N.of_nat (String.length line)) MaxScanTokenSize),
                 (N.ltb_spec (n + N.succ (N.of_nat (String.length line))) MaxScanTokenSize);
          try lia; reflexivity.
Qed.

Lemma Scanner_lines_spec (input : string) :
  Scanner_lines input = map dropCR (lines_before_long (raw_lines input)).
Proof.
  unfold Scanner_lines. rewrite Scanner_scan_spec.
  destruct (raw_lines input) as [|line after]; [reflexivity|].
  cbn [lines_before_long]. unfold fits. rewrite N.add_0_l.
  now destruct (N.of_nat (String.length line) <? MaxScanTokenSize)%N.
Qed.

Lemma lines_before_long_all (lines : list string) :
  (forall l, In l lines -> fits l = true) -> lines_before_long lines = lines.
Proof.
  induction lines as [|l lines IH]; intros A; [reflexivity|].
  cbn [lines_before_long]. rewrite (A l) by now left.
  rewrite IH; [reflexivity|]. intros l' I. apply A. now right.
Qed.

(** C8, amended. [parseInput] reads the lines the scanner delivers
    from standard input: the lines of the stream, each without the
    carriage return at its end, that come before the first line of
    65536 bytes or more, where the scanner gives up and [parseInput]
    goes on as at the end of the input; they are all the lines of the
    stream when none is that long.  Of the lines it reads,
    [parseInput] returns, having written debug output only, the
    attributes and the challenge headers of those before the first
    blank line (all of them when there is none): a line is cut at its
    first [=], a line without [=] contributes nothing, the values
    under [wwwauth[]] make up the headers in input order, and every
    other key holds the value of the last line that carries it. *)
Theorem parseInput_spec {U : Unicode} (input : string) (p : Process) :
  (exists p',
      parseInput (Scanner_lines input) p
      = (Returned (request_attributes (Scanner_lines input),
                   request_headers (Scanner_lines input)), p')
      /\ debug_only p p')
  /\ Scanner_lines input = map dropCR (lines_before_long (raw_lines input))
  /\ ((forall l, In l (raw_lines input) ->
                 (N.of_nat (String.length l) < MaxScanTokenSize)%N) ->
      Scanner_lines input = stream_lines input)
  /\ (forall before : list string,
         (forall l, In l before -> TrimSpace l <> "") ->
         lines_read before = map TrimSpace before
         /\ forall blank after,
              TrimSpace blank = "" ->
              lines_read (before ++ blank :: after) = map TrimSpace before)
  /\ (forall line k v : string,
         cut_line line = Some (k, v) <-> line = k ++ "=" ++ v /\ ~ occurs "=" k)
  /\ (forall line : string, cut_line line = None <-> ~ occurs "=" line)
  /\ (forall k v : string,
         request_attributes (Scanner_lines input) !! k = Some v <->
         exists before after,
           request_pairs (Scanner_lines input) = (before ++ (k, v) :: after)%list
           /\ forall v', ~ In (k, v') after).
Proof.
  split; [|split; [|split; [|split; [|split; [|split]]]]].
  - apply parseInput_run.
  - apply Scanner_lines_spec.
  - intros A. rewrite Scanner_lines_spec, lines_before_long_all; [reflexivity|].
    intros l I. apply N.ltb_lt, A, I.
  - apply lines_read_until_blank.
  - apply cut_line_some.
  - apply cut_line_none.
  - intros k v. apply fold_insert_last.
Qed.

(** The stream [long_line_request] has a [host] line before its blank
    line, and [parseInput] does not return it: the line before it has
    65541 bytes. *)
Lemma long_line_cuts_request : ~ whole_request_read (U := no_unicode) long_line_request.
Proof.
  unfold whole_request_read. intros H.
  apply (f_equal (fun o => match o with
                           | Returned (data, _) => data !! "host"
                           | Exited _ => None
                           end)) in H.
  vm_compute in H. discriminate H.
Qed.

Example parseInput_stream :
  (parseInput (U := no_unicode) (Scanner_lines devops_stream) (start 0)).1
  = Returned ({[ "protocol" := "https"; "host" := "dev.azure.com" ]}, []).
Proof. vm_compute. reflexivity. Qed.

Example parseInput_devops :
  (parseInput (U := no_unicode)
     ["  protocol=https"; "no separator"; "host=old"; "host=dev.azure.com";
      "wwwauth[]=Basic"; "wwwauth[]=" ++ bearer_challenge; "path=a=b"; " "; "host=late"]
     (start 0)).1
  = Returned ({[ "protocol" := "https"; "host" := "dev.azure.com"; "path" := "a=b" ]},
              ["Basic"; bearer_challenge]).
Proof. vm_compute. reflexivity. Qed.

(** ** Realm extraction *)

Lemma span_unquoted_app (v post : string) :
  ~ occurs dquote v ->
  span_unquoted (v ++ String dquote post) = (v, String dquote post).
Proof.
  induction v as [|c v IH]; intros O.
  - reflexivity.
  - rewrite string_app_cons. cbn [span_unquoted].
    destruct (Ascii.eqb_spec c dquote) as [->|N].
    + exfalso. apply O. now exists "", v.
    + rewrite IH; [reflexivity|]. intros (a & b & ->). apply O.
      exists (String c a), b. now rewrite string_app_cons.
Qed.

Lemma span_unquoted_spec (s v rest : string) :
  span_unquoted s = (v, rest) ->
  s = v ++ rest /\ ~ occurs dquote v
  /\ (rest = "" \/ exists r, rest = String dquote r).
Proof.
  revert v rest. induction s as [|c s IH]; intros v rest; cbn [span_unquoted].
  - intros [= <- <-]. split; [reflexivity|]. split; [|now left].
    intros (a & b & E). destruct a; discriminate.
  - destruct (Ascii.eqb_spec c dquote) as [->|N].
    + intros [= <- <-]. split; [reflexivity|]. split; [|right; now exists s].
      intros (a & b & E). destruct a; discriminate.
    + destruct (span_unquoted s) as [v0 rest0]. intros [= <- <-].
      destruct (IH v0 rest0 eq_refl) as (E & O & R).
      split; [now rewrite string_app_cons, <- E|]. split; [|exact R].
      intros (a & b & E'). destruct a as [|a0 a].
      * injection E' as E' _. congruence.
      * rewrite string_app_cons in E'. injection E' as _ E'. apply O. now exists a, b.
Qed.

Lemma realm_match_here_spec (s v : string) :
  (exists w, realm_match_here s = Some (w, v)) <-> exists post, realm_at s "" v post.
Proof.
  unfold realm_match_here, realm_at. split.
  - intros [w E]. destruct (HasPrefix s realm_open) eqn:P; [|discriminate].
    apply HasPrefix_spec in P as [r ->]. rewrite string_drop_app in E.
    destruct (span_unquoted r) as [v0 rest] eqn:S.
    apply span_unquoted_spec in S as (-> & O & R).
    destruct v0 as [|c v0]; [discriminate|].
    destruct rest as [|c' rest]; [discriminate|].
    injection E as _ <-.
    destruct R as [R|[r R]]; [discriminate|]. injection R as -> ->.
    exists r. split; [reflexivity|]. split; [discriminate | exact O].
  - intros (post & -> & N & O). change ("" ++ ?x) with x.
    assert (P : HasPrefix (realm_open ++ v ++ String dquote post) realm_open = true).
    { apply HasPrefix_spec. now eexists. }
    rewrite P, string_drop_app, span_unquoted_app by exact O.
    destruct v as [|c v]; [congruence|]. now eexists.
Qed.

Lemma realm_here_or_later (c : ascii) (s pre v post : string) :
  realm_at (String c s) pre v post ->
  (pre = "" /\ realm_at (String c s) "" v post)
  \/ exists pre', pre = String c pre' /\ realm_at s pre' v post.
Proof.
  intros (E & N & O). destruct pre as [|c' pre'].
  - left. split; [reflexivity|]. now split.
  - right. rewrite string_app_cons in E. injection E as <- E.
    exists pre'. split; [reflexivity|]. now split.
Qed.

(** [FindStringSubmatch] finds the leftmost match, if there is one. *)
Lemma FindStringSubmatch_spec (s : string) :
  (exists w v, FindStringSubmatch s = [w; v] /\ first_realm_in s v)
  \/ (FindStringSubmatch s = [] /\ ~ has_realm s).
Proof.
  induction s as [|c s IH].
  - right. split; [reflexivity|]. intros (pre & v & post & E & _).
    destruct pre; discriminate.
  - cbn [FindStringSubmatch].
    destruct (realm_match_here (String c s)) as [[w v]|] eqn:H.
    + left. exists w, v. split; [reflexivity|].
      destruct (proj1 (realm_match_here_spec (String c s) v)) as [post R];
        [now exists w|].
      exists "", post. split; [exact R|]. intros. simpl. lia.
    + assert (No : forall v post, ~ realm_at (String c s) "" v post).
      { intros v post R.
        destruct (proj2 (realm_match_here_spec (String c s) v)) as [w E];
          [now exists post|]. congruence. }
      destruct IH as [(w & v & -> & pre & post & R & Min)|[-> N]].
      * left. exists w, v. split; [reflexivity|].
        exists (String c pre), post. split.
        -- destruct R as (-> & R). split; [now rewrite string_app_cons | exact R].
        -- intros pre' v' post' R'.
           apply realm_here_or_later in R' as [[_ R']|(pre'' & -> & R')].
           ++ now apply No in R'.
           ++ apply Min in R'. simpl. lia.
      * right. split; [reflexivity|]. intros (pre & v & post & R).
        apply realm_here_or_later in R as [[_ R]|(pre' & _ & R)].
        -- now apply No in R.
        -- apply N. now exists pre', v, post.
Qed.

(** [extractRealm] returns the value of the first match, or the empty
    string when no header has one. *)
Lemma extractRealm_spec (entries : list string) :
  (extractRealm entries <> "" /\ first_realm entries (extractRealm entries))
  \/ (extractRealm entries = "" /\ forall e, In e entries -> ~ has_realm e).
Proof.
  induction entries as [|entry rest IH].
  - right. split; [reflexivity | intros e []].
  - cbn [extractRealm]. cbv zeta.
    destruct (FindStringSubmatch_spec entry) as [(w & v & -> & F)|[-> N]].
    + left. cbn. split.
      * destruct F as (pre & post & (_ & Nv & _) & _). exact Nv.
      * exists [], entry, rest. split; [reflexivity|]. split; [intros e []|exact F].
    + cbn. destruct IH as [[Nv (before & e & after & -> & B & F)]|[E N']].
      * left. split; [exact Nv|].
        exists (entry :: before), e, after. split; [reflexivity|]. split; [|exact F].
        intros e' [<-|I]; [exact N | now apply B].
      * right. split; [exact E|]. intros e' [<-|I]; [exact N | now apply N'].
Qed.

Lemma extractRealm_nonempty_iff (entries : list string) :
  extractRealm entries <> "" <-> exists h, In h entries /\ has_realm h.
Proof.
  destruct (extractRealm_spec entries) as [[N F]|[E No]].
  - split; [intros _ | intros _; exact N].
    destruct F as (before & entry & after & -> & _ & pre & post & R & _).
    exists entry. split; [apply in_or_app; right; now left|].
    now exists pre, (extractRealm (before ++ entry :: after)), post.
  - split; [congruence|]. intros (h & I & R). now apply No in I.
Qed.

Lemma extractRealm_first (entries : list string) :
  extractRealm entries <> "" -> first_realm entries (extractRealm entries).
Proof.
  intros N. destruct (extractRealm_spec entries) as [[_ F]|[E _]]; [exact F | congruence].
Qed.

Lemma string_app_inv_length (a a' b b' : string) :
  String.length a = String.length a' -> a ++ b = a' ++ b' -> a = a' /\ b = b'.
Proof.
  revert a'. induction a as [|c a IH]; intros [|c' a'] L E; try discriminate.
  - now split.
  - rewrite !string_app_cons in E. injection E as -> E. injection L as L.
    destruct (IH a' L E) as [-> ->]. now split.
Qed.

(** The leftmost match of a header has one value. *)
Lemma first_realm_in_unique (entry v v' : string) :
  first_realm_in entry v -> first_realm_in entry v' -> v = v'.
Proof.
  intros (pre & post & R & Min) (pre' & post' & R' & Min').
  assert (L : String.length pre = String.length pre').
  { apply Nat.le_antisymm; [apply (Min _ _ _ R') | apply (Min' _ _ _ R)]. }
  destruct R as (E & _ & O), R' as (E' & _ & O').
  rewrite E in E'. apply string_app_inv_length in E' as [_ E']; [|exact L].
  apply string_app_inv_length in E' as [_ E']; [|reflexivity].
  apply (f_equal span_unquoted) in E'.
  rewrite !span_unquoted_app in E' by assumption. congruence.
Qed.

(** [extractRealm] returns the value of the first match, whatever way
    the match is found. *)
Lemma extractRealm_complete (entries : list string) (v : string) :
  first_realm entries v -> extractRealm entries = v.
Proof.
  intros (before & entry & after & -> & No & F).
  induction before as [|e before IH].
  - cbn [app extractRealm]. cbv zeta.
    destruct (FindStringSubmatch_spec entry) as [(w & v0 & -> & F0)|[_ N]].
    + cbn. apply (first_realm_in_unique entry v0 v F0 F).
    + exfalso. apply N. destruct F as (pre & post & R & _). now exists pre, v, post.
  - cbn [app extractRealm]. cbv zeta.
    destruct (FindStringSubmatch_spec e) as [(w & v0 & _ & pre & post & R & _)|[-> _]].
    + exfalso. apply (No e); [now left|]. now exists pre, v0, post.
    + cbn. apply IH. intros e' I. apply No. now right.
Qed.

Example extractRealm_bearer : extractRealm ["Basic"; bearer_challenge] = "https://example.org/foo".
Proof. reflexivity. Qed.

(** ** The orchestrator *)

Lemma verbosity_debug_state (l : Z) (m : string) (p : Process) :
  verbosity (debug_state l m p) = verbosity p.
Proof. unfold debug_state. now destruct (verbosity p >=? l). Qed.

Lemma allowedDomains_debug_state (l : Z) (m : string) (p : Process) :
  allowedDomains (debug_state l m p) = allowedDomains p.
Proof. unfold debug_state. now destruct (verbosity p >=? l). Qed.

Lemma resourceOverrides_debug_state (l : Z) (m : string) (p : Process) :
  resourceOverrides (debug_state l m p) = resourceOverrides p.
Proof. unfold debug_state. now destruct (verbosity p >=? l). Qed.

Lemma tenantOverrides_debug_state (l : Z) (m : string) (p : Process) :
  tenantOverrides (debug_state l m p) = tenantOverrides p.
Proof. unfold debug_state. now destruct (verbosity p >=? l). Qed.

Lemma stdout_debug_state (l : Z) (m : string) (p : Process) :
  stdout (debug_state l m p) = stdout p.
Proof. unfold debug_state. now destruct (verbosity p >=? l). Qed.

Lemma brokerLog_debug_state (l : Z) (m : string) (p : Process) :
  brokerLog (debug_state l m p) = brokerLog p.
Proof. unfold debug_state. now destruct (verbosity p >=? l). Qed.

Lemma stderr_debug_state (l : Z) (m : string) (p : Process) :
  stderr (debug_state l m p) =
  if verbosity p >=? l then stderr p ++ "[DEBUG] " ++ m ++ String "010" "" else stderr p.
Proof. unfold debug_state. now destruct (verbosity p >=? l). Qed.

Ltac fields :=
  repeat first [ rewrite verbosity_debug_state | rewrite allowedDomains_debug_state
               | rewrite resourceOverrides_debug_state
               | rewrite tenantOverrides_debug_state
               | rewrite stdout_debug_state | rewrite brokerLog_debug_state
               | progress cbn [verbosity allowedDomains resourceOverrides tenantOverrides
                               stdout stderr brokerLog set_allowedDomains
                               set_resourceOverrides set_tenantOverrides
                               write_stdout write_stderr log_broker] ].

Arguments debug_state : simpl never.

Lemma outputCredential_run (T : string) (E : Z) (p : Process) :
  exists p',
    outputCredential T E p = (Returned tt, p')
    /\ stdout p' = stdout p ++ unlines (credential_lines T E)
    /\ brokerLog p' = brokerLog p.
Proof.
  unfold outputCredential, fmt_Println, fmt_Print, credential_lines.
  rewrite Z.gtb_ltb.
  destruct (0 <? E); exec; eexists; (split; [reflexivity|]); simpl;
    (split; [|reflexivity]);
    unfold unlines; rewrite ?string_app_assoc, ?string_app_cons; reflexivity.
Qed.

Section Orchestrator.

Context {U : Unicode}.
Variable git : Configs.
Variable az : Azidentity.
Variable stdin : list string.

Lemma reads_total (v : Z) :
  exists p, reads git stdin v (request_attributes stdin) (request_headers stdin) p.
Proof.
  destruct (loadConfig_run git (start v)) as (p1 & E1 & _).
  destruct (parseInput_run stdin p1) as (p & E2 & _).
  exists p, p1. now split.
Qed.

Lemma reads_facts (v : Z) (data : gmap string string) (wwwauth : list string)
    (p : Process) :
  reads git stdin v data wwwauth p ->
  data = request_attributes stdin /\ wwwauth = request_headers stdin
  /\ verbosity p = v /\ stdout p = "" /\ brokerLog p = []
  /\ (v < 1 -> stderr p = "").
Proof.
  intros (p1 & E1 & E2).
  destruct (loadConfig_run git (start v)) as (p1' & E1' & V1 & O1 & B1 & S1 & _).
  rewrite E1 in E1'. injection E1' as <-.
  destruct (parseInput_run stdin p1) as (p' & E2' & V2 & _ & _ & _ & O2 & B2 & S2).
  rewrite E2 in E2'. injection E2' as <- <- <-.
  simpl in *. repeat split; try congruence.
  intros L. rewrite S2, S1; [reflexivity | exact L | lia].
Qed.

Lemma getAccessToken_run (cred : AzureCLICredential az) (resource : string)
    (p : Process) :
  getAccessToken az cred resource p =
  let opts := {| Scopes := [scopeOf resource] |} in
  let r := GetToken az (brokerLog p) cred opts in
  let p1 := log_broker (GetTokenEvent opts r)
              (debug_state 2 ("Requesting token for scope: " ++ scopeOf resource) p) in
  match r with
  | Err err =>
      (Returned ("", 0, Some err), debug_state 1 ("Failed to get token: " ++ err) p1)
  | Ok token =>
      (Returned (Token token, Unix (ExpiresOn token), None),
       debug_state 2 ("Token acquired, expires at: " ++ Time_String (ExpiresOn token)) p1)
  end.
Proof.
  unfold getAccessToken, cred_GetToken. cbv zeta.
  rewrite !bind_run, debugf_run. cbn [gets]. unfold gets at 1. cbv beta iota.
  rewrite !bind_run. unfold modify at 1. cbv beta iota. unfold mret, M_ret.
  rewrite brokerLog_debug_state.
  destruct (GetToken az (brokerLog p) cred {| Scopes := [scopeOf resource] |});
    rewrite bind_run, debugf_run; reflexivity.
Qed.

(** C4, amended. [getAccessToken] asks the broker for one scope, [r']
    followed by [.default], where [r'] is the resource [r] itself when
    [r] ends with a slash and [r] followed by a slash otherwise; [r']
    ends with a slash, and with exactly one unless [r] itself ends
    with two. *)
Theorem getAccessToken_scope (cred : AzureCLICredential az) (r : string) (p : Process) :
  exists r',
    r' = (if HasSuffix r "/" then r else r ++ "/")
    /\ EndsWith r' "/"
    /\ (~ EndsWith r "//" -> ends_with_one_slash r')
    /\ scopeOf r = r' ++ ".default"
    /\ brokerLog (getAccessToken az cred r p).2
       = (brokerLog p
          ++ [GetTokenEvent {| Scopes := [(r' ++ ".default")%string] |}
                (GetToken az (brokerLog p) cred
                   {| Scopes := [(r' ++ ".default")%string] |})])%list.
Proof.
  destruct (scopeOf_slash r) as (r' & E & S & O & Sc).
  exists r'. repeat (split; [assumption|]).
  rewrite getAccessToken_run. cbv zeta. rewrite Sc.
  destruct (GetToken az (brokerLog p) cred {| Scopes := [r' ++ ".default"] |});
    cbn [snd]; fields; reflexivity.
Qed.

Lemma credential_options_run (data : gmap string string) (p q : Process) :
  debug_only p q ->
  exists q',
    ((if negb (String.eqb (getTenantForHost (tenantOverrides q) (request_protocol data)
                             (request_host data)) "")
      then debugf 1 ("Using tenant override: " ++
                     getTenantForHost (tenantOverrides q) (request_protocol data)
                       (request_host data)) ;;
           mret (Some {| TenantID := getTenantForHost (tenantOverrides q)
                                       (request_protocol data) (request_host data) |})
      else mret None) : M (option AzureCLICredentialOptions)) q
    = (Returned (credential_options data p), q')
    /\ debug_only p q'.
Proof.
  intros D. unfold credential_options.
  destruct D as (V & A & R & T & O & B & E). rewrite T.
  destruct (String.eqb (getTenantForHost (tenantOverrides p) (request_protocol data)
                          (request_host data)) "") eqn:Ht; cbn [negb].
  - exists q. split; [reflexivity|]. unfold debug_only. tauto.
  - rewrite bind_run, debugf_run. eexists. split; [reflexivity|].
    eapply debug_only_trans; [|apply debug_state_only; lia].
    unfold debug_only. tauto.
Qed.

(** The last step of [getCredential], for a token the broker gave. *)
Lemma output_step (token : AccessToken) (p : Process) :
  post (if negb (String.eqb (Token token) "")
        then debugf 1 "Successfully obtained credential" ;;
             outputCredential (Token token) (Unix (ExpiresOn token))
        else mret tt) p
    (fun o pf => o = Returned tt
                 /\ brokerLog pf = brokerLog p
                 /\ stdout pf = stdout p ++ credential_text token).
Proof.
  unfold credential_text.
  destruct (String.eqb (Token token) ""); cbn [negb]; run.
  - split; [reflexivity|]. split; [reflexivity|]. now rewrite string_app_nil_r.
  - match goal with
    | |- post (outputCredential ?T ?E) ?q _ =>
        destruct (outputCredential_run T E q) as (pf & Eo & So & Bo)
    end.
    eapply post_returned; [exact Eo|].
    split; [reflexivity|]. rewrite So, Bo. fields. now split.
Qed.

Lemma run_get_post (v : Z) (Q : Z -> Process -> Prop) :
  post (getCredential git az stdin) (start v) (fun o pf => Q (status o) pf) ->
  Q (run_get git az stdin v).1 (run_get git az stdin v).2.
Proof.
  unfold post, run_get.
  now destruct (getCredential git az stdin (start v)) as [[[]|code] pf].
Qed.

Lemma run_get_Run (v : Z) (data : gmap string string) (wwwauth : list string)
    (p : Process) :
  reads git stdin v data wwwauth p ->
  Run az data wwwauth p (run_get git az stdin v).1 (run_get git az stdin v).2.
Proof.
  intros (p1 & E1 & E2). apply run_get_post. unfold getCredential.
  apply post_bind. eapply post_returned; [exact E1|].
  apply post_bind. eapply post_returned; [exact E2|]. cbv beta iota zeta.
  fold (request_protocol data). fold (request_host data).
  run.
  match goal with
  | |- context [debug_state 1 ?m p] => set (p0 := debug_state 1 m p)
  end.
  assert (D0 : debug_only p p0) by (apply debug_state_only; lia).
  destruct (String.eqb (request_protocol data) "https") eqn:Hp; cbn [negb].
  2: { run. apply Run_skipped.
       - intros [Hq _]. apply String.eqb_neq in Hp. congruence.
       - eapply debug_only_trans; [exact D0 | apply debug_state_only; lia]. }
  apply String.eqb_eq in Hp. run.
  replace (allowedDomains p0) with (allowedDomains p) by (symmetry; apply D0).
  destruct (isAllowedHost (request_host data) (allowedDomains p)) eqn:Ha; cbn [negb].
  2: { run. apply Run_skipped.
       - intros [_ Hq]. congruence.
       - eapply debug_only_trans; [exact D0 | apply debug_state_only; lia]. }
  assert (Adm : admitted data p) by (split; assumption).
  run.
  destruct (credential_options_run data p p0 D0) as (q & Eq & Dq).
  eapply post_returned; [exact Eq|]. clear Eq.
  unfold azidentity_NewAzureCLICredential. run.
  replace (brokerLog q) with (brokerLog p) by (symmetry; apply Dq).
  set (opts := credential_options data p).
  destruct (NewAzureCLICredential az (brokerLog p) opts) as [cred|e] eqn:N.
  2: { run. now apply Run_fatal. }
  run.
  destruct Dq as (_ & _ & Rq & _ & Oq & Bq & _).
  cbn [resourceOverrides log_broker]. rewrite Rq.
  fold (primary_resource data p).
  eapply post_eq; [apply getAccessToken_run|]. cbv zeta.
  rewrite brokerLog_debug_state. cbn [brokerLog log_broker]. rewrite Bq.
  set (created := NewCredentialEvent opts None).
  set (opts1 := {| Scopes := [scopeOf (primary_resource data p)] |}).
  destruct (GetToken az (brokerLog p ++ [created]) cred opts1) as [token|e] eqn:G;
    cbn [fst snd]; run.
  - eapply post_conseq; [apply output_step|]. intros o pf (-> & B & O).
    apply (Run_primary az data wwwauth p cred token pf Adm N G).
    + rewrite B. fields. rewrite Bq. now rewrite <- app_assoc.
    + rewrite O. fields. now rewrite Oq.
  - fields. rewrite Rq.
    destruct (decide (has_override data p)) as [Ho|Ho].
    + assert (Hb : negb (bool_decide (is_Some (resourceOverrides p !!
                     (request_protocol data ++ "://" ++ request_host data))))
                   && negb (bool_decide (is_Some (resourceOverrides p !!
                     request_host data))) = false).
      { destruct Ho as [Ho|Ho]; rewrite (bool_decide_eq_true_2 _ Ho);
          [reflexivity | apply andb_false_r]. }
      rewrite Hb. run.
      apply (Run_failed az data wwwauth p cred e _ Adm N G); [now left | |].
      * fields. rewrite Bq. now rewrite <- app_assoc.
      * fields. exact Oq.
    + assert (Hb : negb (bool_decide (is_Some (resourceOverrides p !!
                     (request_protocol data ++ "://" ++ request_host data))))
                   && negb (bool_decide (is_Some (resourceOverrides p !!
                     request_host data))) = true).
      { unfold has_override in Ho.
        rewrite !bool_decide_eq_false_2; [reflexivity | tauto | tauto]. }
      rewrite Hb.
      destruct (String.eqb (extractRealm wwwauth) "") eqn:Hr; cbn [negb].
      * apply String.eqb_eq in Hr. run.
        apply (Run_failed az data wwwauth p cred e _ Adm N G); [now right | |].
        -- fields. rewrite Bq. now rewrite <- app_assoc.
        -- fields. exact Oq.
      * apply String.eqb_neq in Hr. run.
        eapply post_eq; [apply getAccessToken_run|]. cbv zeta.
        fields. rewrite Bq, <- app_assoc. cbn [app].
        set (opts2 := {| Scopes := [scopeOf (extractRealm wwwauth)] |}).
        destruct (GetToken az (brokerLog p ++ [created; GetTokenEvent opts1 (Err e)])
                    cred opts2) as [token|e2] eqn:G2; cbn [fst snd]; run.
        -- eapply post_conseq; [apply output_step|]. intros o pf (-> & B & O).
           apply (Run_realm az data wwwauth p cred e (Ok token) pf Adm N G Ho Hr G2).
           ++ rewrite B. fields. rewrite Bq, <- !app_assoc. reflexivity.
           ++ rewrite O. fields. now rewrite Oq.
        -- apply (Run_realm az data wwwauth p cred e (Err e2) _ Adm N G Ho Hr G2).
           ++ fields. rewrite Bq, <- !app_assoc. reflexivity.
           ++ fields. now rewrite Oq, string_app_nil_r.
Qed.

(** The run, taken apart: the request is read, and the run goes one
    of the five ways. *)
Lemma run_get_cases (v : Z) :
  exists data wwwauth p code pf,
    reads git stdin v data wwwauth p
    /\ run_get git az stdin v = (code, pf)
    /\ Run az data wwwauth p code pf
    /\ verbosity p = v /\ stdout p = "" /\ brokerLog p = []
    /\ (v < 1 -> stderr p = "").
Proof.
  destruct (reads_total v) as (p & R).
  exists (request_attributes stdin), (request_headers stdin), p,
    (run_get git az stdin v).1, (run_get git az stdin v).2.
  split; [exact R|]. split; [now destruct (run_get git az stdin v)|].
  split; [now apply run_get_Run|].
  now destruct (reads_facts _ _ _ _ R) as (_ & _ & F).
Qed.

Lemma reads_unique (v : Z) (data data' : gmap string string)
    (wwwauth wwwauth' : list string) (p p' : Process) :
  reads git stdin v data wwwauth p -> reads git stdin v data' wwwauth' p' ->
  data' = data /\ wwwauth' = wwwauth /\ p' = p.
Proof.
  intros (p1 & E1 & E2) (p1' & E1' & E2').
  rewrite E1 in E1'. injection E1' as <-.
  rewrite E2 in E2'. now injection E2' as <- <- <-.
Qed.

(** C6. A request whose protocol is not [https], or whose host no
    allowed domain matches, ends with exit status zero and nothing on
    standard output. *)
Theorem skipped_request_silent (v : Z) (data : gmap string string)
    (wwwauth : list string) (p : Process) :
  reads git stdin v data wwwauth p ->
  request_protocol data <> "https"
  \/ isAllowedHost (request_host data) (allowedDomains p) = false ->
  (run_get git az stdin v).1 = 0 /\ stdout (run_get git az stdin v).2 = "".
Proof.
  intros R Skip.
  destruct (run_get_cases v)
    as (data' & wwwauth' & p' & code & pf & R' & -> & H & _ & O & _).
  destruct (reads_unique _ _ _ _ _ _ _ R R') as (-> & -> & ->). cbn [fst snd].
  assert (NA : ~ admitted data p).
  { intros [A1 A2]. destruct Skip; congruence. }
  destruct H as [pf Nadm D| | | |]; try contradiction.
  split; [reflexivity|]. destruct D as (_ & _ & _ & _ & -> & _). exact O.
Qed.

(** C7. The broker is contacted only once the request has passed the
    protocol and domain checks: a request that fails either leaves
    the record of broker calls empty, and a run with any broker call
    is one whose request passed both. *)
Theorem gate_before_broker (v : Z) (data : gmap string string)
    (wwwauth : list string) (p : Process) :
  reads git stdin v data wwwauth p ->
  (request_protocol data <> "https"
   \/ isAllowedHost (request_host data) (allowedDomains p) = false ->
   brokerLog (run_get git az stdin v).2 = [])
  /\ (brokerLog (run_get git az stdin v).2 <> [] ->
      request_protocol data = "https"
      /\ isAllowedHost (request_host data) (allowedDomains p) = true).
Proof.
  intros R.
  destruct (run_get_cases v)
    as (data' & wwwauth' & p' & code & pf & R' & -> & H & _ & _ & B & _).
  destruct (reads_unique _ _ _ _ _ _ _ R R') as (-> & -> & ->). cbn [fst snd].
  destruct H as [pf Nadm D|e q Adm _ _|cred token pf ? ? Adm _ _ _ _
                |cred e pf ? ? Adm _ _ _ _ _|cred e second pf ? ? ? Adm _ _ _ _ _ _ _].
  - assert (L : brokerLog pf = []).
    { destruct D as (_ & _ & _ & _ & _ & -> & _). exact B. }
    split; [intros _; exact L | intros N; now rewrite L in N].
  - split; [|intros _; exact Adm]. intros Skip. destruct Adm. destruct Skip; congruence.
  - split; [|intros _; exact Adm]. intros Skip. destruct Adm. destruct Skip; congruence.
  - split; [|intros _; exact Adm]. intros Skip. destruct Adm. destruct Skip; congruence.
  - split; [|intros _; exact Adm]. intros Skip. destruct Adm. destruct Skip; congruence.
Qed.

(** C5. The standard output of a run for a request with protocol
    [https] and an allowed host, once the broker handle is built, is
    settled by what the broker answers.  When it answers the request
    for the primary resource with a token, or refuses that one and
    answers the request for the realm with a token, and the token [T]
    is not empty, with expiry [E], the run ends with status 0 and
    standard output is exactly the lines [authtype=bearer],
    [username=null], [password=T] and, when [E] is positive only,
    [password_expiry_utc=E].  When the token is empty, when the last
    request made is refused, and in every run where no token request
    is made, standard output is empty. *)
Theorem stdout_all_or_nothing (v : Z) (data : gmap string string)
    (wwwauth : list string) (p : Process) :
  reads git stdin v data wwwauth p ->
  (forall cred token,
      request_protocol data = "https" ->
      isAllowedHost (request_host data) (allowedDomains p) = true ->
      NewAzureCLICredential az [] (credential_options data p) = Ok cred ->
      GetToken az [NewCredentialEvent (credential_options data p) None] cred
        {| Scopes := [scopeOf (primary_resource data p)] |} = Ok token ->
      (run_get git az stdin v).1 = 0
      /\ stdout (run_get git az stdin v).2
         = if String.eqb (Token token) "" then ""
           else unlines (credential_lines (Token token) (Unix (ExpiresOn token))))
  /\ (forall cred e second,
         request_protocol data = "https" ->
         isAllowedHost (request_host data) (allowedDomains p) = true ->
         NewAzureCLICredential az [] (credential_options data p) = Ok cred ->
         GetToken az [NewCredentialEvent (credential_options data p) None] cred
           {| Scopes := [scopeOf (primary_resource data p)] |} = Err e ->
         ~ has_override data p ->
         extractRealm wwwauth <> "" ->
         GetToken az
           [NewCredentialEvent (credential_options data p) None;
            GetTokenEvent {| Scopes := [scopeOf (primary_resource data p)] |} (Err e)]
           cred {| Scopes := [scopeOf (extractRealm wwwauth)] |} = second ->
         (run_get git az stdin v).1 = 0
         /\ stdout (run_get git az stdin v).2
            = match second with
              | Ok token =>
                  if String.eqb (Token token) "" then ""
                  else unlines (credential_lines (Token token) (Unix (ExpiresOn token)))
              | Err _ => ""
              end)
  /\ (forall cred e,
         request_protocol data = "https" ->
         isAllowedHost (request_host data) (allowedDomains p) = true ->
         NewAzureCLICredential az [] (credential_options data p) = Ok cred ->
         GetToken az [NewCredentialEvent (credential_options data p) None] cred
           {| Scopes := [scopeOf (primary_resource data p)] |} = Err e ->
         has_override data p \/ extractRealm wwwauth = "" ->
         (run_get git az stdin v).1 = 0 /\ stdout (run_get git az stdin v).2 = "")
  /\ stdout (run_get git az stdin v).2 =
     match last_answer (brokerLog (run_get git az stdin v).2) with
     | Some (Ok token) =>
         if String.eqb (Token token) "" then ""
         else unlines (credential_lines (Token token) (Unix (ExpiresOn token)))
     | _ => ""
     end
  /\ (stdout (run_get git az stdin v).2 <> "" ->
      request_protocol data = "https"
      /\ isAllowedHost (request_host data) (allowedDomains p) = true).
Proof.
  intros R.
  destruct (run_get_cases v)
    as (data' & wwwauth' & p' & code & pf & R' & -> & H & _ & O & B & _).
  destruct (reads_unique _ _ _ _ _ _ _ R R') as (-> & -> & ->). cbn [fst snd].
  fold credential_text.
  destruct H as [pf Nadm D|e0 q Adm N D|cred0 token0 pf created first Adm N G L S
                |cred0 e0 pf created first Adm N G Alt L S
                |cred0 e0 second0 pf created first again Adm N G Ho Hr G2 L S];
    try (subst created first); try subst again; rewrite ?B in *; cbn [app] in *.
  - assert (So : stdout pf = "") by (destruct D as (_ & _ & _ & _ & -> & _); exact O).
    assert (Lo : brokerLog pf = []) by (destruct D as (_ & _ & _ & _ & _ & -> & _); exact B).
    rewrite So, Lo.
    repeat split; try reflexivity; intros; exfalso;
      first [ apply Nadm; now split | congruence ].
  - fields. destruct D as (_ & _ & _ & _ & Oq & Bq & _). rewrite Oq, Bq, O, B.
    repeat split; try reflexivity; intros; exfalso; congruence.
  - rewrite S, L, O. cbn [app last_answer token_calls omap map last].
    split; [|split; [|split; [|split]]].
    + intros cred token _ _ N' G'. rewrite N' in N. injection N as <-.
      rewrite G' in G. injection G as <-. now split.
    + intros cred e second _ _ N' G'. rewrite N' in N. injection N as <-. congruence.
    + intros cred e _ _ N' G'. rewrite N' in N. injection N as <-. congruence.
    + reflexivity.
    + intros _. exact Adm.
  - rewrite S, L, O. split; [|split; [|split; [|split]]].
    + intros cred token _ _ N' G'. rewrite N' in N. injection N as <-. congruence.
    + intros cred e second _ _ N' G' Ho Hr. exfalso. destruct Alt; [now apply Ho | now apply Hr].
    + intros. now split.
    + reflexivity.
    + intros X. now contradiction X.
  - rewrite S, L, O. split; [|split; [|split; [|split]]].
    + intros cred token _ _ N' G'. rewrite N' in N. injection N as <-. congruence.
    + intros cred e second _ _ N' G' _ _ G2'. rewrite N' in N. injection N as <-.
      rewrite G' in G. injection G as <-. rewrite G2' in G2. subst second0. now split.
    + intros cred e _ _ _ _ [Ho'|Hr']; exfalso; [now apply Ho | now apply Hr].
    + now destruct second0.
    + intros _. exact Adm.
Qed.

(** C9, amended. A failed construction of the broker handle ends the
    process with exit status 1 and nothing on standard output; the
    line that reports it is the last one on standard error when the
    verbosity is at least 1, and standard error stays empty when it
    is not.  No other run ends with a non-zero status. *)
Theorem construction_failure_fatal (v : Z) :
  (forall e,
      construction_failed (brokerLog (run_get git az stdin v).2) e ->
      (run_get git az stdin v).1 = 1
      /\ stdout (run_get git az stdin v).2 = ""
      /\ (1 <= v -> EndsWith (stderr (run_get git az stdin v).2) (failure_line e))
      /\ (v < 1 -> stderr (run_get git az stdin v).2 = ""))
  /\ ((run_get git az stdin v).1 <> 0 ->
      exists e, construction_failed (brokerLog (run_get git az stdin v).2) e).
Proof.
  destruct (run_get_cases v)
    as (data & wwwauth & p & code & pf & _ & -> & H & V & O & B & S).
  cbn [fst snd].
  destruct H as [pf Nadm D|e q Adm _ D|cred token pf ? ? Adm _ _ L _
                |cred e pf ? ? Adm _ _ _ L _|cred e second pf ? ? ? Adm _ _ _ _ _ L _].
  - split; [|intros N; now contradiction N].
    intros e [opts I]. destruct D as (_ & _ & _ & _ & _ & L & _).
    rewrite L, B in I. destruct I.
  - destruct D as (Vq & _ & _ & _ & Oq & Bq & Sq). split.
    + intros e' [opts I]. revert I. fields. rewrite Bq, B.
      intros [[= _ <-]|[]]. split; [reflexivity|]. split; [now rewrite Oq|].
      rewrite stderr_debug_state. fields. rewrite Vq, V. split.
      * intros G. apply Z.geb_le in G. rewrite G. now exists (stderr q).
      * intros G.
        replace (v >=? 1) with false
          by (symmetry; rewrite Z.geb_leb; apply Z.leb_gt; lia).
        rewrite Sq; [apply S; exact G | lia].
    + intros _. exists e, (credential_options data p). fields. rewrite Bq, B. now left.
  - split; [|intros N; now contradiction N].
    intros e' [o I]. rewrite L, B in I. now destruct I as [?|[?|[]]].
  - split; [|intros N; now contradiction N].
    intros e' [o I]. rewrite L, B in I. now destruct I as [?|[?|[]]].
  - split; [|intros N; now contradiction N].
    intros e' [o I]. rewrite L, B in I. now destruct I as [?|[?|[?|[]]]].
Qed.

(** C1. At most two token requests are made.  A second one is made
    exactly when the first was refused, the host has no resource
    override under the full-URL key or the bare-host key, and some
    challenge header holds a realm; it asks for the value of the
    first match, the headers taken in input order.  When no header
    matches, the extracted realm is empty and there is no second
    request; with an override there is none either. *)
Theorem realm_fallback (v : Z) (data : gmap string string)
    (wwwauth : list string) (p : Process) :
  reads git stdin v data wwwauth p ->
  let calls := token_calls (brokerLog (run_get git az stdin v).2) in
  (length calls <= 2)%nat
  /\ (length calls = 2%nat <->
      (exists opts e, calls !! 0%nat = Some (opts, Err e))
      /\ ~ has_override data p
      /\ exists h, In h wwwauth /\ has_realm h)
  /\ (forall opts res,
        calls !! 1%nat = Some (opts, res) ->
        (exists realm, first_realm wwwauth realm)
        /\ forall realm, first_realm wwwauth realm -> Scopes opts = [scopeOf realm])
  /\ ((forall h, In h wwwauth -> ~ has_realm h) ->
      extractRealm wwwauth = "" /\ (length calls <= 1)%nat)
  /\ (has_override data p -> (length calls <= 1)%nat).
Proof.
  intros R.
  destruct (run_get_cases v)
    as (data' & wwwauth' & p' & code & pf & R' & -> & H & _ & _ & B & _).
  destruct (reads_unique _ _ _ _ _ _ _ R R') as (-> & -> & ->). cbn [fst snd].
  assert (Empty : (forall h, In h wwwauth -> ~ has_realm h) -> extractRealm wwwauth = "").
  { intros No. destruct (decide (extractRealm wwwauth = "")) as [E|N]; [exact E|].
    apply extractRealm_nonempty_iff in N as (h & I & Hr). now apply No in I. }
  destruct H as [pf Nadm D|e q Adm _ D|cred token pf ? ? Adm _ _ L _
                |cred e pf ? ? Adm _ _ Hf L _|cred e second pf ? ? ? Adm _ _ Ho Hr _ L _].
  - destruct D as (_ & _ & _ & _ & _ & -> & _). rewrite B. cbn.
    repeat split; try lia; try discriminate.
    + now intros [(opts & e & [=]) _].
    + apply Empty; assumption.
  - fields. destruct D as (_ & _ & _ & _ & _ & -> & _). rewrite B. cbn.
    repeat split; try lia; try discriminate.
    + now intros [(opts & e' & [=]) _].
    + apply Empty; assumption.
  - rewrite L, B. cbn.
    repeat split; try lia; try discriminate.
    + now intros [(opts' & e & [=]) _].
    + apply Empty; assumption.
  - rewrite L, B. cbn.
    repeat split; try lia; try discriminate.
    + intros (_ & No & Some). exfalso. destruct Hf as [Hf|Hf]; [now apply No|].
      apply extractRealm_nonempty_iff in Some. contradiction.
    + apply Empty; assumption.
  - rewrite L, B. cbn.
    repeat split; try lia.
    + now exists opts, e.
    + exact Ho.
    + now apply extractRealm_nonempty_iff.
    + exists (extractRealm wwwauth). now apply extractRealm_first.
    + intros realm F. injection H as <- _.
      now rewrite <- (extractRealm_complete wwwauth realm F).
    + exfalso. apply Hr, Empty. assumption.
    + exfalso. apply Hr, Empty. assumption.
    + intros Hov. contradiction.
Qed.

End Orchestrator.

(** ** The claims on worked runs *)

Lemma reads_ftp :
  reads (U := no_unicode) empty_config ftp_request 0 ftp_data []
    (read_state (U := no_unicode) empty_config ftp_request 0).
Proof.
  exists (loadConfig (U := no_unicode) empty_config (start 0)).2.
  split; vm_compute; reflexivity.
Defined.

Lemma reads_foreign :
  reads (U := no_unicode) empty_config foreign_request 0 foreign_data []
    (read_state (U := no_unicode) empty_config foreign_request 0).
Proof.
  exists (loadConfig (U := no_unicode) empty_config (start 0)).2.
  split; vm_compute; reflexivity.
Defined.

Lemma reads_devops :
  reads (U := no_unicode) empty_config devops_request 0 devops_data [bearer_challenge]
    (read_state (U := no_unicode) empty_config devops_request 0).
Proof.
  exists (loadConfig (U := no_unicode) empty_config (start 0)).2.
  split; vm_compute; reflexivity.
Defined.

(** C5 on a request for Azure DevOps that the broker answers with a
    token. *)
Lemma stdout_all_or_nothing_devops :
  (run_get (U := no_unicode) empty_config signed_in devops_request 0).1 = 0
  /\ stdout (run_get (U := no_unicode) empty_config signed_in devops_request 0).2
     = unlines ["authtype=bearer"; "username=null"; "password=eyJ0eXAi";
                "password_expiry_utc=1700000000"].
Proof.
  refine (proj1 (stdout_all_or_nothing (U := no_unicode) empty_config signed_in
                   devops_request 0 devops_data [bearer_challenge] _ reads_devops)
            tt sample_token _ _ _ _); reflexivity.
Defined.

(** C6 on an [ftp] request. *)
Lemma skipped_request_silent_ftp :
  request_protocol ftp_data <> "https"
  /\ (run_get (U := no_unicode) empty_config signed_in ftp_request 0).1 = 0
  /\ stdout (run_get (U := no_unicode) empty_config signed_in ftp_request 0).2 = "".
Proof.
  assert (N : request_protocol ftp_data <> "https") by (vm_compute; discriminate).
  split; [exact N|].
  exact (skipped_request_silent (U := no_unicode) empty_config signed_in ftp_request 0
           ftp_data [] _ reads_ftp (or_introl N)).
Defined.

(** C7 on a request for a host outside the allowed domains. *)
Lemma gate_before_broker_foreign :
  isAllowedHost (U := no_unicode) (request_host foreign_data)
    (allowedDomains (read_state (U := no_unicode) empty_config foreign_request 0)) = false
  /\ brokerLog (run_get (U := no_unicode) empty_config signed_in foreign_request 0).2 = [].
Proof.
  assert (N : isAllowedHost (U := no_unicode) (request_host foreign_data)
                (allowedDomains (read_state (U := no_unicode) empty_config foreign_request 0))
              = false) by (vm_compute; reflexivity).
  split; [exact N|].
  exact (proj1 (gate_before_broker (U := no_unicode) empty_config signed_in foreign_request 0
                  foreign_data [] _ reads_foreign) (or_intror N)).
Defined.

(** C1 on a request whose primary attempt is refused and whose
    challenge header names a realm. *)
Lemma realm_fallback_devops :
  length (token_calls
            (brokerLog (run_get (U := no_unicode) empty_config realm_only devops_request 0).2))
  = 2%nat
  /\ (exists opts e,
        token_calls
          (brokerLog (run_get (U := no_unicode) empty_config realm_only devops_request 0).2)
        !! 0%nat = Some (opts, Err e))
  /\ first_realm [bearer_challenge] "https://example.org/foo".
Proof.
  pose proof (realm_fallback (U := no_unicode) empty_config realm_only devops_request 0
                devops_data [bearer_challenge] _ reads_devops) as (_ & Two & Second & _).
  cbv zeta in Two, Second.
  assert (First : exists opts e,
             token_calls
               (brokerLog (run_get (U := no_unicode) empty_config realm_only
                             devops_request 0).2)
             !! 0%nat = Some (opts, Err e)).
  { eexists _, _. vm_compute. reflexivity. }
  assert (L : length (token_calls
                (brokerLog (run_get (U := no_unicode) empty_config realm_only
                              devops_request 0).2)) = 2%nat).
  { apply Two. split; [exact First|]. split.
    - intros [[x Hx]|[x Hx]]; vm_compute in Hx; discriminate.
    - apply extractRealm_nonempty_iff. vm_compute. discriminate. }
  split; [exact L|]. split; [exact First|].
  destruct (Second {| Scopes := ["https://example.org/foo/.default"] |} (Ok sample_token))
    as [[realm F] _]; [vm_compute; reflexivity|].
  now rewrite <- (extractRealm_complete [bearer_challenge] realm F) in F.
Defined.

(** C9 as stated fails when the helper is not verbose: the broker
    refuses the configured tenant, the process exits with status 1,
    and standard error stays empty. *)
Lemma failure_not_reported :
  ~ failure_reported (U := no_unicode) tenant_config rejects_tenant devops_request 0.
Proof.
  intros H. destruct (H "invalid tenantID") as [_ (a & b & E)].
  - exists (Some {| TenantID := "contoso tenant" |}). vm_compute. now left.
  - assert (S : stderr (run_get (U := no_unicode) tenant_config rejects_tenant
                          devops_request 0).2 = "") by (vm_compute; reflexivity).
    rewrite S in E. apply (f_equal String.length) in E.
    rewrite !string_length_app in E. simpl in E. lia.
Qed.

Example failure_reported_when_verbose :
  (run_get (U := no_unicode) tenant_config rejects_tenant devops_request 1).1 = 1
  /\ EndsWith
       (stderr (run_get (U := no_unicode) tenant_config rejects_tenant devops_request 1).2)
       (failure_line "invalid tenantID").
Proof.
  split; [vm_compute; reflexivity|].
  exists ("[DEBUG] Handling get request for https://dev.azure.com"
          ++ String "010" "[DEBUG] Using tenant override: contoso tenant"
          ++ String "010" "").
  vm_compute. reflexivity.
Qed.

Example run_override_no_fallback :
  token_calls
    (brokerLog (run_get (U := no_unicode) resource_config realm_only devops_request 0).2)
  = [({| Scopes := ["https://microsoft.onmicrosoft.com/AKSGoProxyMSFT/.default"] |},
      Err "AADSTS500011: resource principal not found")]
  /\ stdout (run_get (U := no_unicode) resource_config realm_only devops_request 0).2 = "".
Proof. split; vm_compute; reflexivity. Qed.

Example run_no_expiry :
  stdout (run_get (U := no_unicode) empty_config no_expiry devops_request 0).2
  = unlines ["authtype=bearer"; "username=null"; "password=eyJ0eXAi"].
Proof. vm_compute. reflexivity. Qed.

(** * Further properties of [main.go] *)

(** ** Silence on standard error *)

Lemma quiet_ret {A : Type} (a : A) : quiet (mret a : M A).
Proof. intros p. now split. Qed.

Lemma quiet_gets {A : Type} (f : Process -> A) : quiet (gets f).
Proof. intros p. now split. Qed.

Lemma quiet_exit {A : Type} (code : Z) : quiet (os_Exit code : M A).
Proof. intros p. now split. Qed.

Lemma quiet_modify (f : Process -> Process) :
  (forall p, verbosity (f p) = verbosity p /\ stderr (f p) = stderr p) ->
  quiet (modify f).
Proof. intros F p. destruct (F p) as [V S]. now split. Qed.

Lemma quiet_debugf (level : Z) (msg : string) : 1 <= level -> quiet (debugf level msg).
Proof.
  intros L p. rewrite debugf_run. cbn [snd].
  destruct (debug_state_only level msg p L) as (V & _ & _ & _ & _ & _ & S).
  now split.
Qed.

Lemma quiet_bind {A B : Type} (m : M A) (f : A -> M B) :
  quiet m -> (forall a, quiet (f a)) -> quiet (m ≫= f).
Proof.
  intros Qm Qf p. rewrite bind_run. destruct (Qm p) as [V S].
  destruct (m p) as [[a|code] q]; cbn [snd] in *; [|now split].
  destruct (Qf a q) as [V' S']. split; [congruence|].
  intros L. rewrite S', S; [reflexivity | exact L | lia].
Qed.

Lemma quiet_for_range {A : Type} (l : list A) (body : A -> M unit) :
  (forall x, quiet (body x)) -> quiet (for_range l body).
Proof.
  intros Qb. induction l as [|x l IH]; cbn [for_range].
  - apply quiet_ret.
  - apply quiet_bind; [apply Qb | intros _; exact IH].
Qed.

(** The rules above, applied by the head of the computation. *)
Ltac quiet_step :=
  lazymatch goal with
  | |- quiet (debugf _ _) => apply quiet_debugf; lia
  | |- quiet (mret _) => apply quiet_ret
  | |- quiet (gets _) => apply quiet_gets
  | |- quiet (os_Exit _) => apply quiet_exit
  | |- quiet (modify _) => apply quiet_modify; intros; now split
  | |- quiet (for_range _ _) => apply quiet_for_range; intros
  | |- quiet (_ ≫= _) => apply quiet_bind; [|intros]
  | |- quiet (if ?b then _ else _) => destruct b
  | |- quiet (match ?x with _ => _ end) => destruct x
  | |- quiet (let _ := _ in _) => cbv zeta
  end.

Lemma quiet_outputCredential (T : string) (E : Z) : quiet (outputCredential T E).
Proof. unfold outputCredential, fmt_Println, fmt_Print. repeat quiet_step. Qed.

Section Silence.

Context {U : Unicode}.
Variable git : Configs.
Variable az : Azidentity.
Variable stdin : list string.

Lemma quiet_loadConfig : quiet (loadConfig git).
Proof. unfold loadConfig. repeat quiet_step. Qed.

Lemma quiet_parseInput_loop (lines : list string) :
  forall data wwwauth, quiet (parseInput_loop lines data wwwauth).
Proof.
  induction lines as [|text rest IH]; intros data wwwauth; cbn [parseInput_loop].
  - apply quiet_ret.
  - repeat quiet_step; apply IH.
Qed.

Lemma quiet_getAccessToken (cred : AzureCLICredential az) (resource : string) :
  quiet (getAccessToken az cred resource).
Proof. unfold getAccessToken, cred_GetToken. repeat quiet_step. Qed.

Lemma quiet_getCredential : quiet (getCredential git az stdin).
Proof.
  unfold getCredential, parseInput, azidentity_NewAzureCLICredential.
  repeat first [ apply quiet_loadConfig | apply quiet_parseInput_loop
               | apply quiet_getAccessToken | apply quiet_outputCredential
               | quiet_step ].
Qed.

(** X1. With the verbosity below 1 the statements of [main.go] on
    the path of the [get] command write nothing to standard error,
    whatever the configuration, the request and the broker's answers:
    [getCredential] leaves there what it finds, and a run from the
    start of the process leaves it empty.  The writes recorded are
    those of [main.go]; what a library writes to the stream on its
    own account during a call (the logger of the Azure SDK does when
    [AZURE_SDK_GO_LOGGING] is set) is not among them. *)
Theorem get_silent_by_default (v : Z) :
  v < 1 ->
  stderr (run_get git az stdin v).2 = ""
  /\ forall p : Process,
       verbosity p = v ->
       stderr (getCredential git az stdin p).2 = stderr p.
Proof.
  intros L. split.
  - unfold run_get.
    destruct (quiet_getCredential (start v)) as [_ S].
    destruct (getCredential git az stdin (start v)) as [[[]|code] p]; cbn [snd] in *;
      now apply S.
  - intros p V. destruct (quiet_getCredential p) as [_ S]. apply S. lia.
Qed.

End Silence.

Lemma get_silent_by_default_realm :
  stderr (run_get (U := no_unicode) empty_config realm_only devops_request 0).2 = "".
Proof.
  refine (proj1 (get_silent_by_default (U := no_unicode) empty_config realm_only
                   devops_request 0 _)).
  lia.
Defined.

(** ** The override tables [loadConfig] builds *)

Lemma EndsWith_app (s x y : string) : EndsWith s (x ++ y) -> EndsWith s y.
Proof. intros [pre ->]. exists (pre ++ x). now rewrite string_app_assoc. Qed.

Lemma EndsWith_last (s : string) (a b : ascii) :
  EndsWith s (String a "") -> EndsWith s (String b "") -> a = b.
Proof.
  intros [pre ->] [pre' E].
  apply string_app_inv_length in E as [_ E]; [now injection E|].
  apply (f_equal String.length) in E. rewrite !string_length_app in E. simpl in E. lia.
Qed.

(** No key ends both with [.resource] and with [.tenant]. *)
Lemma suffixes_exclusive (key : string) :
  HasSuffix key ".tenant" = true -> HasSuffix key ".resource" = false.
Proof.
  intros T. apply HasSuffix_spec in T. apply HasSuffix_false. intros R.
  change ".tenant" with (".tenan" ++ "t") in T.
  change ".resource" with (".resourc" ++ "e") in R.
  apply (EndsWith_app key) in T. apply (EndsWith_app key) in R.
  pose proof (EndsWith_last key _ _ T R). discriminate.
Qed.

Section Tables.

Context {U : Unicode}.
Variable git : Configs.

Lemma override_entry_tenant (key : string) :
  (if HasSuffix key ".resource" then None else override_entry git ".tenant" key)
  = override_entry git ".tenant" key.
Proof.
  unfold override_entry. destruct (HasSuffix key ".tenant") eqn:T.
  - now rewrite (suffixes_exclusive key T).
  - now destruct (HasSuffix key ".resource").
Qed.

(** One round of the second loop of [loadConfig] adds the entries of
    its key to the two tables. *)
Lemma overrides_body_tables (key : string) (q : Process) :
  exists q',
    (if HasSuffix key ".resource" then
       let urlPart := TrimPrefix key "azureclicredentialhelper." in
       let urlPart := TrimSuffix urlPart ".resource" in
       if negb (String.eqb urlPart "") then
         let resource := Configs_Get git key in
         if negb (String.eqb resource "") then
           ro ← gets resourceOverrides;
           modify (set_resourceOverrides (<[urlPart := resource]> ro)) ;;
           debugf 2 ("Loaded resource override: " ++ urlPart ++ " -> " ++ resource)
         else mret tt
       else mret tt
     else if HasSuffix key ".tenant" then
       let urlPart := TrimPrefix key "azureclicredentialhelper." in
       let urlPart := TrimSuffix urlPart ".tenant" in
       if negb (String.eqb urlPart "") then
         let tenant := Configs_Get git key in
         if negb (String.eqb tenant "") then
           to ← gets tenantOverrides;
           modify (set_tenantOverrides (<[urlPart := tenant]> to)) ;;
           debugf 2 ("Loaded tenant override: " ++ urlPart ++ " -> " ++ tenant)
         else mret tt
       else mret tt
     else mret tt) q = (Returned tt, q')
    /\ resourceOverrides q'
       = match override_entry git ".resource" key with
         | Some kv => <[kv.1 := kv.2]> (resourceOverrides q)
         | None => resourceOverrides q
         end
    /\ tenantOverrides q'
       = match override_entry git ".tenant" key with
         | Some kv => <[kv.1 := kv.2]> (tenantOverrides q)
         | None => tenantOverrides q
         end.
Proof.
  rewrite <- (override_entry_tenant key). unfold override_entry, config_prefix.
  cbv zeta.
  destruct (HasSuffix key ".resource");
    [|destruct (HasSuffix key ".tenant")];
    repeat match goal with
           | |- context [String.eqb ?s ""] => destruct (String.eqb s "")
           end;
    cbn [negb]; exec; eexists; (split; [reflexivity|]); fields; now split.
Qed.

Lemma overrides_loop_tables (body : string -> M unit) :
  (forall key q, exists q',
      body key q = (Returned tt, q')
      /\ resourceOverrides q'
         = match override_entry git ".resource" key with
           | Some kv => <[kv.1 := kv.2]> (resourceOverrides q)
           | None => resourceOverrides q
           end
      /\ tenantOverrides q'
         = match override_entry git ".tenant" key with
           | Some kv => <[kv.1 := kv.2]> (tenantOverrides q)
           | None => tenantOverrides q
           end) ->
  forall (keys : list string) (p : Process), exists p',
    for_range keys body p = (Returned tt, p')
    /\ resourceOverrides p'
       = fold_left (fun m kv => <[kv.1 := kv.2]> m)
           (omap (override_entry git ".resource") keys) (resourceOverrides p)
    /\ tenantOverrides p'
       = fold_left (fun m kv => <[kv.1 := kv.2]> m)
           (omap (override_entry git ".tenant") keys) (tenantOverrides p).
Proof.
  intros Body keys. induction keys as [|key keys IH]; intros p.
  - exists p. now repeat split.
  - cbn [for_range omap list_omap]. rewrite bind_run.
    destruct (Body key p) as (q & -> & R & T).
    destruct (IH q) as (p' & -> & R' & T').
    exists p'. split; [reflexivity|]. rewrite R', T', R, T.
    destruct (override_entry git ".resource" key), (override_entry git ".tenant" key);
      now split.
Qed.

Lemma loadConfig_tables (p : Process) :
  resourceOverrides (loadConfig git p).2 = overrides_of git ".resource"
  /\ tenantOverrides (loadConfig git p).2 = overrides_of git ".tenant".
Proof.
  unfold loadConfig, overrides_of, override_entries, config_prefix. cbv zeta.
  match goal with
  | |- context [for_range (Configs_List git ?k) ?body] =>
      set (loop := for_range (Configs_List git k) body)
  end.
  assert (Loop : forall q, exists p',
             loop q = (Returned tt, p')
             /\ resourceOverrides p'
                = fold_left (fun m kv => <[kv.1 := kv.2]> m)
                    (omap (override_entry git ".resource")
                       (Configs_List git "azureclicredentialhelper."))
                    (resourceOverrides q)
             /\ tenantOverrides p'
                = fold_left (fun m kv => <[kv.1 := kv.2]> m)
                    (omap (override_entry git ".tenant")
                       (Configs_List git "azureclicredentialhelper."))
                    (tenantOverrides q)).
  { intros q. apply overrides_loop_tables. intros key q'. apply overrides_body_tables. }
  clearbody loop.
  rewrite bind_run, debugf_run, bind_run.
  set (domains := Configs_GetAll git "azureclicredentialhelper.alloweddomain").
  destruct (length domains =? 0)%nat.
  - exec.
    match goal with
    | |- context [loop ?q] => destruct (Loop q) as (p' & -> & R & T)
    end.
    cbn [snd]. rewrite R, T. fields. now split.
  - rewrite bind_run.
    pose proof (domains_loop domains (debug_state 2 "Loading git configuration" p)) as D.
    cbv zeta in D. rewrite D. clear D. exec.
    match goal with
    | |- context [if ?b then _ else _] => destruct b
    end; exec;
      match goal with
      | |- context [loop ?q] => destruct (Loop q) as (p' & -> & R & T)
      end;
      cbn [snd]; rewrite R, T; fields; now split.
Qed.

End Tables.

Lemma TrimPrefix_app (pre s : string) : TrimPrefix (pre ++ s) pre = s.
Proof.
  unfold TrimPrefix.
  assert (P : HasPrefix (pre ++ s) pre = true) by (apply HasPrefix_spec; now exists s).
  rewrite P. apply string_drop_app.
Qed.

Lemma TrimSuffix_app (s suffix : string) : TrimSuffix (s ++ suffix) suffix = s.
Proof.
  unfold TrimSuffix.
  assert (S : HasSuffix (s ++ suffix) suffix = true) by (apply HasSuffix_spec; now exists s).
  rewrite S, string_length_app.
  replace (String.length s + String.length suffix - String.length suffix)%nat
    with (String.length s) by lia.
  apply string_take_app.
Qed.

Lemma TrimSuffix_cases (s suffix : string) :
  (HasSuffix s suffix = true /\ s = TrimSuffix s suffix ++ suffix)
  \/ (HasSuffix s suffix = false /\ TrimSuffix s suffix = s).
Proof.
  destruct (HasSuffix s suffix) eqn:S.
  - left. split; [reflexivity|]. apply HasSuffix_spec in S as [pre ->].
    now rewrite TrimSuffix_app.
  - right. split; [reflexivity|]. unfold TrimSuffix. now rewrite S.
Qed.

(** Entries that agree on the value of a key leave that value under
    the key. *)
Lemma fold_insert_same (pairs : list (string * string)) (k v : string) :
  In (k, v) pairs ->
  (forall v', In (k, v') pairs -> v' = v) ->
  fold_left (fun m kv => <[kv.1 := kv.2]> m) pairs (∅ : gmap string string) !! k = Some v.
Proof.
  induction pairs as [|[k0 v0] pairs IH] using rev_ind; intros I Same; [destruct I|].
  rewrite fold_left_app. cbn [fold_left fst snd].
  destruct (decide (k0 = k)) as [->|N].
  - rewrite lookup_insert_eq. f_equal. apply Same. apply in_or_app. right. now left.
  - rewrite lookup_insert_ne by exact N. apply IH.
    + apply in_app_or in I as [I|[[= -> ->]|[]]]; [exact I | congruence].
    + intros v' I'. apply Same. apply in_or_app. now left.
Qed.

Lemma In_omap {A B : Type} (f : A -> option B) (l : list A) (y : B) :
  In y (omap f l) <-> exists x, In x l /\ f x = Some y.
Proof.
  rewrite <- list_elem_of_In, list_elem_of_omap.
  split; intros (x & I & E); exists x; (split; [now apply list_elem_of_In | exact E]).
Qed.

Section Lookup.

Variable git : Configs.
Variable suffix : string.

(** What an entry says of the key it comes from. *)
Lemma override_entry_some (key u r : string) :
  override_entry git suffix key = Some (u, r) <->
  HasSuffix key suffix = true
  /\ TrimSuffix (TrimPrefix key config_prefix) suffix = u
  /\ u <> "" /\ Configs_Get git key = r /\ r <> "".
Proof.
  unfold override_entry. cbv zeta.
  destruct (HasSuffix key suffix); [|split; [discriminate | now intros []]].
  destruct (String.eqb_spec (TrimSuffix (TrimPrefix key config_prefix) suffix) "") as [E|E].
  - split; [discriminate|]. intros (_ & <- & N & _). contradiction.
  - destruct (String.eqb_spec (Configs_Get git key) "") as [G|G].
    + split; [discriminate|]. intros (_ & _ & _ & <- & N). contradiction.
    + split.
      * intros [= <- <-]. now repeat split.
      * intros (_ & <- & _ & <- & _). reflexivity.
Qed.

Lemma overrides_of_lookup (u r : string) :
  overrides_of git suffix !! u = Some r ->
  u <> "" /\ r <> ""
  /\ exists key,
       In key (Configs_List git config_prefix)
       /\ HasSuffix key suffix = true
       /\ TrimSuffix (TrimPrefix key config_prefix) suffix = u
       /\ Configs_Get git key = r.
Proof.
  intros L. apply fold_insert_last in L as (before & after & E & _).
  assert (I : In (u, r) (override_entries git suffix)).
  { rewrite E. apply in_or_app. right. now left. }
  apply In_omap in I as (key & I & S).
  apply override_entry_some in S as (S & T & Nu & G & Nr).
  split; [exact Nu|]. split; [exact Nr|]. now exists key.
Qed.

Lemma overrides_of_configured (u : string) :
  (forall key, In key (Configs_List git config_prefix) ->
               HasPrefix key config_prefix = true) ->
  u <> "" ->
  ~ In (config_prefix ++ u) (Configs_List git config_prefix) ->
  In (config_prefix ++ u ++ suffix) (Configs_List git config_prefix) ->
  Configs_Get git (config_prefix ++ u ++ suffix) <> "" ->
  overrides_of git suffix !! u = Some (Configs_Get git (config_prefix ++ u ++ suffix)).
Proof.
  intros Pre Nu Bare I G. apply fold_insert_same.
  - apply In_omap. exists (config_prefix ++ u ++ suffix). split; [exact I|].
    apply override_entry_some. split.
    + apply HasSuffix_spec. exists (config_prefix ++ u). now rewrite string_app_assoc.
    + rewrite TrimPrefix_app, TrimSuffix_app. now repeat split.
  - intros r' I'. apply In_omap in I' as (key & Ik & S).
    apply override_entry_some in S as (S & T & _ & <- & _).
    apply Pre in Ik as P. apply HasPrefix_spec in P as [k1 ->].
    rewrite TrimPrefix_app in T.
    destruct (TrimSuffix_cases k1 suffix) as [[_ E]|[_ E]].
    + rewrite T in E. now rewrite E.
    + rewrite E in T. subst k1. contradiction.
Qed.

End Lookup.

(** X2. An override configured under the key
    [azureclicredentialhelper.<u>.resource] (or [.tenant]) with a value
    that is not empty is found under [u] in the table [loadConfig]
    builds, provided every listed key carries the name space prefix and
    the bare key [azureclicredentialhelper.<u>] is not listed too. *)
Theorem configured_override_loaded {U : Unicode} (git : Configs) (p : Process) (u : string) :
  (forall key, In key (Configs_List git config_prefix) ->
               HasPrefix key config_prefix = true) ->
  u <> "" ->
  ~ In (config_prefix ++ u) (Configs_List git config_prefix) ->
  (In (config_prefix ++ u ++ ".resource") (Configs_List git config_prefix) ->
   Configs_Get git (config_prefix ++ u ++ ".resource") <> "" ->
   resourceOverrides (loadConfig git p).2 !! u
   = Some (Configs_Get git (config_prefix ++ u ++ ".resource")))
  /\ (In (config_prefix ++ u ++ ".tenant") (Configs_List git config_prefix) ->
      Configs_Get git (config_prefix ++ u ++ ".tenant") <> "" ->
      tenantOverrides (loadConfig git p).2 !! u
      = Some (Configs_Get git (config_prefix ++ u ++ ".tenant"))).
Proof.
  intros Pre Nu Bare. destruct (loadConfig_tables git p) as [-> ->].
  split; intros I G; now apply overrides_of_configured.
Qed.

(** X3. Whatever the configuration and whatever the tables held
    before, every override in the tables [loadConfig] builds has a
    key and a value that are not empty, and is the value of a listed
    configuration key with the table's suffix that reduces to the
    override's key. *)
Theorem loaded_overrides_sound {U : Unicode} (git : Configs) (p : Process) :
  (forall u r,
      resourceOverrides (loadConfig git p).2 !! u = Some r ->
      u <> "" /\ r <> ""
      /\ exists key,
           In key (Configs_List git config_prefix)
           /\ HasSuffix key ".resource" = true
           /\ TrimSuffix (TrimPrefix key config_prefix) ".resource" = u
           /\ Configs_Get git key = r)
  /\ (forall u t,
         tenantOverrides (loadConfig git p).2 !! u = Some t ->
         u <> "" /\ t <> ""
         /\ exists key,
              In key (Configs_List git config_prefix)
              /\ HasSuffix key ".tenant" = true
              /\ TrimSuffix (TrimPrefix key config_prefix) ".tenant" = u
              /\ Configs_Get git key = t).
Proof.
  destruct (loadConfig_tables git p) as [-> ->].
  split; intros u r; apply overrides_of_lookup.
Qed.

Lemma configured_override_loaded_devops :
  resourceOverrides (loadConfig (U := no_unicode) resource_config (start 0)).2
  !! "dev.azure.com"
  = Some "https://microsoft.onmicrosoft.com/AKSGoProxyMSFT".
Proof.
  refine (proj1 (configured_override_loaded (U := no_unicode) resource_config (start 0)
                   "dev.azure.com" _ _ _) _ _).
  - intros key [<-|[]]. reflexivity.
  - discriminate.
  - intros [E|[]]. discriminate E.
  - now left.
  - vm_compute. discriminate.
Defined.

(** ** The broker calls of a run *)

Lemma scopeOf_default (r : string) : EndsWith (scopeOf r) "/.default".
Proof.
  destruct (scopeOf_slash r) as (r' & _ & [pre ->] & _ & ->).
  exists pre. now rewrite string_app_assoc.
Qed.

Section Calls.

Context {U : Unicode}.
Variable git : Configs.
Variable az : Azidentity.
Variable stdin : list string.

(** X4. The broker handle is built at most once in a run and before
    any token request, with no options when the host has no tenant
    override and with the override as tenant otherwise; token requests
    follow exactly when the handle was built. *)
Theorem broker_log_shape (v : Z) :
  exists data wwwauth p,
    reads git stdin v data wwwauth p
    /\ (brokerLog (run_get git az stdin v).2 = []
        \/ exists res calls,
             brokerLog (run_get git az stdin v).2
             = NewCredentialEvent (credential_options data p) res :: calls
             /\ Forall is_token_request calls
             /\ (calls = [] <-> res <> None)).
Proof.
  destruct (run_get_cases git az stdin v)
    as (data & wwwauth & p & code & pf & R & -> & H & _ & _ & B & _).
  exists data, wwwauth, p. split; [exact R|]. cbn [snd].
  destruct H as [pf Nadm D|e q Adm _ D|cred token pf ? ? Adm _ _ L _
                |cred e pf ? ? Adm _ _ _ L _|cred e second pf ? ? ? Adm _ _ _ _ _ L _].
  - left. destruct D as (_ & _ & _ & _ & _ & -> & _). exact B.
  - right. fields. destruct D as (_ & _ & _ & _ & _ & -> & _). rewrite B.
    exists (Some e), []. split; [reflexivity|]. split; [constructor|].
    split; [discriminate | reflexivity].
  - right. rewrite L, B. eexists None, _. split; [reflexivity|].
    split; [repeat constructor; now eexists _, _|].
    split; [discriminate | intros N; now contradiction N].
  - right. rewrite L, B. eexists None, _. split; [reflexivity|].
    split; [repeat constructor; now eexists _, _|].
    split; [discriminate | intros N; now contradiction N].
  - right. rewrite L, B. eexists None, _. split; [reflexivity|].
    split; [repeat constructor; now eexists _, _|].
    split; [discriminate | intros N; now contradiction N].
Qed.

(** X5. Every token request of a run asks for exactly one scope, and
    that scope ends with [/.default]. *)
Theorem token_scopes_default (v : Z) (opts : TokenRequestOptions)
    (res : result AccessToken) :
  In (opts, res) (token_calls (brokerLog (run_get git az stdin v).2)) ->
  exists scope, Scopes opts = [scope] /\ EndsWith scope "/.default".
Proof.
  destruct (run_get_cases git az stdin v)
    as (data & wwwauth & p & code & pf & R & -> & H & _ & _ & B & _).
  cbn [snd].
  destruct H as [pf Nadm D|e q Adm _ D|cred token pf ? ? Adm _ _ L _
                |cred e pf ? ? Adm _ _ _ L _|cred e second pf ? ? ? Adm _ _ _ _ _ L _].
  - destruct D as (_ & _ & _ & _ & _ & -> & _). rewrite B. intros [].
  - fields. destruct D as (_ & _ & _ & _ & _ & -> & _). rewrite B. intros [].
  - rewrite L, B. cbn. intros [[= <- _]|[]].
    eexists. split; [reflexivity | apply scopeOf_default].
  - rewrite L, B. cbn. intros [[= <- _]|[]].
    eexists. split; [reflexivity | apply scopeOf_default].
  - rewrite L, B. cbn. intros [[= <- _]|[[= <- _]|[]]];
      (eexists; split; [reflexivity | apply scopeOf_default]).
Qed.

End Calls.

Lemma token_scopes_default_devops :
  exists scope,
    Scopes {| Scopes := ["https://example.org/foo/.default"] |} = [scope]
    /\ EndsWith scope "/.default".
Proof.
  apply (token_scopes_default (U := no_unicode) empty_config realm_only devops_request 0
           _ (Ok sample_token)).
  vm_compute. right. now left.
Defined.

(** ** The gate and the override lookup together *)

(** X6. The gate compares hosts without regard to case, the override
    lookup compares them exactly: a host that differs from the single
    configured domain [d] in case only is admitted, yet an override
    stored under [d] is not applied to it. *)
Theorem override_lookup_case_sensitive {U : Unicode} (p h d r : string) :
  ToLower h = ToLower d ->
  h <> d ->
  p ++ "://" ++ h <> d ->
  isAllowedHost h [d] = true
  /\ getResourceForHost {[ d := r ]} p h = (p ++ "://" ++ h) ++ "/"
  /\ getTenantForHost {[ d := r ]} p h = "".
Proof.
  intros L Nh Nu. split; [|split].
  - rewrite isAllowedHost_cons, L, String.eqb_refl. reflexivity.
  - unfold getResourceForHost. cbv zeta.
    rewrite !lookup_singleton_ne by congruence. reflexivity.
  - unfold getTenantForHost. cbv zeta.
    rewrite !lookup_singleton_ne by congruence. reflexivity.
Qed.

Lemma override_lookup_case_sensitive_devops :
  isAllowedHost (U := no_unicode) "Dev.Azure.Com" ["dev.azure.com"] = true
  /\ getResourceForHost {[ "dev.azure.com" := "api://proxy" ]} "https" "Dev.Azure.Com"
     = ("https" ++ "://" ++ "Dev.Azure.Com") ++ "/"
  /\ getTenantForHost {[ "dev.azure.com" := "api://proxy" ]} "https" "Dev.Azure.Com" = "".
Proof.
  apply (override_lookup_case_sensitive (U := no_unicode)
           "https" "Dev.Azure.Com" "dev.azure.com" "api://proxy").
  - reflexivity.
  - discriminate.
  - discriminate.
Defined.

(** ** More on realm extraction and on the parser *)

Lemma FindStringSubmatch_shape (s : string) :
  FindStringSubmatch s = []
  \/ exists w v, FindStringSubmatch s = [w; v] /\ v <> "".
Proof.
  destruct (FindStringSubmatch_spec s) as [(w & v & E & pre & post & (_ & N & _) & _)|[E _]].
  - right. now exists w, v.
  - now left.
Qed.

(** X7. [extractRealm] takes the first realm of a list of headers:
    over two lists put end to end it is the realm of the first list
    when that has one and the realm of the second otherwise, and it
    never holds a double quote. *)
Theorem extractRealm_app (l1 l2 : list string) :
  extractRealm (l1 ++ l2)
  = (if String.eqb (extractRealm l1) "" then extractRealm l2 else extractRealm l1)
  /\ ~ occurs dquote (extractRealm (l1 ++ l2)).
Proof.
  split.
  - induction l1 as [|e l1 IH]; [reflexivity|].
    cbn [app extractRealm]. cbv zeta.
    destruct (FindStringSubmatch_shape e) as [->|(w & v & -> & N)].
    + cbn. exact IH.
    + cbn. apply String.eqb_neq in N. now rewrite N.
  - destruct (extractRealm_spec (l1 ++ l2))
      as [[_ (before & entry & after & _ & _ & pre & post & (_ & _ & O) & _)]|[-> _]].
    + exact O.
    + intros (a & b & E). destruct a; discriminate.
Qed.

(** X8. Whatever [parseInput] stores comes from a line of the request:
    an attribute [k] with value [v] from the trimmed line [k=v], where
    [k] holds no [=] and is not [wwwauth[]], and a challenge header [h]
    from the trimmed line [wwwauth[]=h]. *)
Theorem parseInput_round_trip {U : Unicode} (stdin : list string) (p : Process) :
  exists data wwwauth,
    (parseInput stdin p).1 = Returned (data, wwwauth)
    /\ (forall k v,
          data !! k = Some v ->
          k <> "wwwauth[]" /\ ~ occurs "=" k /\ In (k ++ "=" ++ v) (lines_read stdin))
    /\ (forall h, In h wwwauth -> In ("wwwauth[]" ++ "=" ++ h) (lines_read stdin)).
Proof.
  destruct (parseInput_run stdin p) as (p' & E & _).
  exists (request_attributes stdin), (request_headers stdin).
  split; [now rewrite E|].
  assert (Line : forall k v, In (k, v) (pairs_read stdin) ->
                             ~ occurs "=" k /\ In (k ++ "=" ++ v) (lines_read stdin)).
  { intros k v I. apply In_omap in I as (line & I & C).
    apply cut_line_some in C as [-> O]. now split. }
  split.
  - intros k v L. apply fold_insert_last in L as (before & after & E' & _).
    assert (I : In (k, v) (request_pairs stdin)).
    { rewrite E'. apply in_or_app. right. now left. }
    apply filter_In in I as [I C]. destruct (Line k v I) as [O I'].
    split; [|now split]. intros ->. discriminate C.
  - intros h I. apply in_map_iff in I as ([k v] & <- & I).
    apply filter_In in I as [I C]. apply String.eqb_eq in C. cbn in C. subst k.
    now apply Line.
Qed.

(** ** The [.netrc] check *)

(** A loop that appends to its variable what each round finds, and
    writes debug output only. *)
Lemma fold_range_app {A B : Type} (g : A -> list B) (body : list B -> A -> M (list B)) :
  (forall acc x q, exists q',
      body acc x q = (Returned (acc ++ g x)%list, q') /\ debug_only q q') ->
  forall (l : list A) (acc : list B) (p : Process), exists p',
    fold_range l acc body p = (Returned (acc ++ flat_map g l)%list, p')
    /\ debug_only p p'.
Proof.
  intros Body l. induction l as [|x l IH]; intros acc p; cbn [fold_range flat_map].
  - exists p. rewrite app_nil_r. split; [reflexivity | apply debug_only_refl].
  - rewrite bind_run. destruct (Body acc x p) as (q & -> & D).
    destruct (IH (acc ++ g x)%list q) as (p' & -> & D').
    exists p'. rewrite app_assoc. split; [reflexivity|].
    now apply (debug_only_trans p q p').
Qed.



Section Netrc.

Context {U : Unicode} {F : UnicodeFields}.
Variable os : OS.

Lemma netrc_scan (file domains : list string) (p : Process) :
  exists p',
    fold_range file [] (fun foundHosts text =>
      let line := TrimSpace text in
      if String.eqb line "" || HasPrefix line "#" then mret foundHosts
      else
        let fields := Fields line in
        fold_range (seq 0 (length fields - 1)) foundHosts (fun foundHosts i =>
          if String.eqb (nth i fields "") "machine" then
            let host := ToLower (nth (i + 1) fields "") in
            fold_range domains foundHosts (fun foundHosts domain =>
              let domain := ToLower domain in
              if String.eqb host domain || HasSuffix host ("." ++ domain) then
                debugf 1 ("Found matching host in .netrc: " ++ host) ;;
                mret (foundHosts ++ [host])%list
              else mret foundHosts)
          else mret foundHosts)) p
    = (Returned (netrc_hosts file domains), p')
    /\ debug_only p p'.
Proof.
  change (netrc_hosts file domains) with ([] ++ netrc_hosts file domains)%list.
  unfold netrc_hosts. apply fold_range_app. intros acc text q. cbv zeta.
  destruct (String.eqb (TrimSpace text) "" || HasPrefix (TrimSpace text) "#").
  { exists q. rewrite app_nil_r. split; [reflexivity | apply debug_only_refl]. }
  unfold netrc_line_hosts. apply fold_range_app. clear acc q. intros acc i q.
  destruct (String.eqb (nth i (Fields (TrimSpace text)) "") "machine").
  2: { exists q. rewrite app_nil_r. split; [reflexivity | apply debug_only_refl]. }
  set (host := ToLower (nth (i + 1) (Fields (TrimSpace text)) "")).
  replace (map (fun _ => host) (List.filter (netrc_match host) domains))
    with (flat_map (fun d => if netrc_match host d then [host] else []) domains).
  2: { clear. induction domains as [|d ds IH]; [reflexivity|].
       cbn [flat_map List.filter]. rewrite IH. now destruct (netrc_match host d). }
  apply fold_range_app. clear acc q. intros acc d q. unfold netrc_match.
  destruct (String.eqb host (ToLower d) || HasSuffix host ("." ++ ToLower d)).
  - rewrite bind_run, debugf_run. eexists. split; [reflexivity|].
    apply debug_state_only. lia.
  - exists q. rewrite app_nil_r. split; [reflexivity | apply debug_only_refl].
Qed.



(** X10. When the home directory is not known, or [.netrc] does not
    open (missing or not), [checkNetrcForDomains] reports no host and
    writes debug output only. *)
Theorem checkNetrcForDomains_unreadable (domains : list string) (p : Process) :
  (exists e, os_UserHomeDir os = Err e)
  \/ (exists home e,
        os_UserHomeDir os = Ok home
        /\ os_Open os (filepath_Join os home ".netrc") = Err e) ->
  exists p',
    checkNetrcForDomains os domains p = (Returned [], p') /\ debug_only p p'.
Proof.
  unfold checkNetrcForDomains. intros [[e ->]|(home & e & -> & O)].
  - rewrite bind_run, debugf_run. eexists. split; [reflexivity|].
    apply debug_state_only. lia.
  - cbv zeta. rewrite O. destruct (os_IsNotExist os e);
      rewrite bind_run, debugf_run; (eexists; split; [reflexivity|]);
      apply debug_state_only; lia.
Qed.

End Netrc.


Lemma checkNetrcForDomains_unreadable_no_home :
  exists p',
    checkNetrcForDomains (U := no_unicode) (F := no_unicode_fields) without_home
      defaultAllowedDomains (start 0) = (Returned [], p')
    /\ debug_only (start 0) p'.
Proof.
  apply (checkNetrcForDomains_unreadable (U := no_unicode) (F := no_unicode_fields)
           without_home defaultAllowedDomains (start 0)).
  left. exists "$HOME is not defined". reflexivity.
Defined.

Example checkNetrcForDomains_devops :
  (checkNetrcForDomains (U := no_unicode) (F := no_unicode_fields) with_netrc
     defaultAllowedDomains (start 0)).1
  = Returned ["dev.azure.com"].
Proof. vm_compute. reflexivity. Qed.

(** ** The [init] and [exports] commands *)

Lemma write_stderr_nil (p : Process) : write_stderr "" p = p.
Proof. destruct p. unfold write_stderr. cbn. now rewrite string_app_nil_r. Qed.

Lemma write_stderr_app (a b : string) (p : Process) :
  write_stderr b (write_stderr a p) = write_stderr (a ++ b) p.
Proof. unfold write_stderr. cbn. now rewrite string_app_assoc. Qed.

Lemma for_range_stderr (pre : string) (l : list string) (p : Process) :
  for_range l (fun x => fmt_Fprint_stderr (pre ++ x ++ String "010" "")) p
  = (Returned tt, write_stderr (unlines (map (fun x => pre ++ x) l)) p).
Proof.
  revert p. induction l as [|x l IH]; intros p.
  - cbn. now rewrite write_stderr_nil.
  - cbn [for_range map unlines]. rewrite bind_run. unfold fmt_Fprint_stderr at 1, modify.
    rewrite IH, write_stderr_app. f_equal. f_equal.
    now rewrite !string_app_assoc.
Qed.

Lemma MS_bind_run {A B : Type} (m : MS A) (f : A -> MS B) (s : Shell) :
  (m ≫= f) s =
  match m s with
  | (Returned a, s') => f a s'
  | (Exited code, s') => (Exited code, s')
  end.
Proof. reflexivity. Qed.

Lemma lift_run {A : Type} (m : M A) (s : Shell) :
  lift m s = ((m (process s)).1, {| process := (m (process s)).2; gitLog := gitLog s |}).
Proof. unfold lift. now destruct (m (process s)). Qed.

Section Init.

Context {U : Unicode} {F : UnicodeFields}.
Variable os : OS.

Lemma checkNetrcForDomains_run (domains : list string) (p : Process) :
  exists p',
    checkNetrcForDomains os domains p = (Returned (netrc_found os domains), p')
    /\ debug_only p p'.
Proof.
  unfold checkNetrcForDomains, netrc_found.
  destruct (os_UserHomeDir os) as [home|e].
  - cbv zeta. destruct (os_Open os (filepath_Join os home ".netrc")) as [file|e].
    + rewrite bind_run, debugf_run.
      destruct (netrc_scan file domains
                  (debug_state 2 ("Checking .netrc at " ++ filepath_Join os home ".netrc") p))
        as (p' & E & D).
      cbv zeta in E. rewrite E. exists p'. split; [reflexivity|].
      eapply debug_only_trans; [|exact D]. apply debug_state_only. lia.
    + destruct (os_IsNotExist os e);
        rewrite bind_run, debugf_run; (eexists; split; [reflexivity|]);
        apply debug_state_only; lia.
  - rewrite bind_run, debugf_run. eexists. split; [reflexivity|].
    apply debug_state_only. lia.
Qed.

Lemma runGitConfig_run (args : list string) (s : Shell) :
  runGitConfig os args s
  = (Returned (child_err (exec_git os (gitLog s) args)),
     {| process := after_git (exec_git os (gitLog s) args) args (process s);
        gitLog := (gitLog s ++ [args])%list |}).
Proof.
  unfold runGitConfig. rewrite MS_bind_run, lift_run, debugf_run. reflexivity.
Qed.

Lemma warning_run (hosts : list string) (s : Shell) :
  (if (0 <? length hosts)%nat then
     lift (fmt_Fprint_stderr
             (String "010" "⚠️  WARNING: Found entries in ~/.netrc that may conflict with this credential helper:"
              ++ String "010" "")) ;;
     lift (for_range hosts (fun host =>
             fmt_Fprint_stderr ("   - " ++ host ++ String "010" ""))) ;;
     lift (fmt_Fprint_stderr
             (String "010" "Please remove these entries from ~/.netrc to avoid authentication conflicts."
              ++ String "010" (String "010" "")))
   else mret tt) s
  = (Returned tt,
     {| process := write_stderr (netrc_warning hosts) (process s); gitLog := gitLog s |}).
Proof.
  destruct hosts as [|h hosts].
  - cbn. rewrite write_stderr_nil. now destruct s.
  - cbn [length Nat.ltb Nat.leb]. rewrite MS_bind_run, lift_run.
    unfold fmt_Fprint_stderr at 1, modify. cbn [fst snd process gitLog].
    rewrite MS_bind_run, lift_run, for_range_stderr. cbn [fst snd process gitLog].
    rewrite lift_run. unfold fmt_Fprint_stderr, modify. cbn [fst snd process gitLog].
    rewrite !write_stderr_app. unfold netrc_warning. rewrite !string_app_assoc.
    reflexivity.
Qed.

Lemma stdout_after_git (run : ChildRun) (args : list string) (p : Process) :
  stdout (after_git run args p) = stdout p ++ child_stdout run.
Proof. unfold after_git. fields. reflexivity. Qed.

Lemma verbosity_after_git (run : ChildRun) (args : list string) (p : Process) :
  verbosity (after_git run args p) = verbosity p.
Proof. unfold after_git. fields. reflexivity. Qed.

Lemma stderr_after_git (run : ChildRun) (args : list string) (p : Process) :
  verbosity p < 1 -> stderr (after_git run args p) = stderr p ++ child_stderr run.
Proof.
  intros V. unfold after_git. fields.
  destruct (debug_state_only 1 ("Running: git " ++ Join args " ") p) as (_ & _ & _ & _ & _ & _ & E);
    [lia|].
  now rewrite (E V).
Qed.

Lemma stderr_after_git_ends (run : ChildRun) (args : list string) (p : Process) :
  EndsWith (stderr (after_git run args p)) (child_stderr run).
Proof. unfold after_git. fields. now eexists. Qed.

Lemma run_init_failed (e : string) (v : Z) :
  getExecutablePath os = Err e ->
  run_init os v
  = (1, {| process := write_stderr ("Error: " ++ e ++ String "010" "") (start v);
           gitLog := [] |}).
Proof. intros E. unfold run_init, initCommand. rewrite E. reflexivity. Qed.

(** The runs of [init] once the path of the executable is known. *)
Lemma run_init_configures (exe : string) (v : Z) :
  getExecutablePath os = Ok exe ->
  exists p1 : Process,
    debug_only (start v) p1 /\
    let p2 := after_git (first_run os) set_cache_helper
                (write_stdout ("Configuring git credential helpers..." ++ String "010" "")
                   (write_stderr (netrc_warning (netrc_found os defaultAllowedDomains)) p1)) in
    let p3 := after_git (second_run os exe) (add_this_helper exe)
                (write_stdout ("✓ Added cache credential helper" ++ String "010" "") p2) in
    run_init os v =
    match child_err (first_run os) with
    | Some e =>
        (1, {| process := write_stderr ("Error setting cache helper: " ++ e ++ String "010" "") p2;
               gitLog := [set_cache_helper] |})
    | None =>
        match child_err (second_run os exe) with
        | Some e =>
            (1, {| process := write_stderr
                                ("Error adding azure-cli helper: " ++ e ++ String "010" "") p3;
                   gitLog := [set_cache_helper; add_this_helper exe] |})
        | None =>
            (0, {| process := write_stdout
                                (String "010" "Git credential configuration complete!"
                                 ++ String "010" "")
                                (write_stdout ("✓ Added azure-cli credential helper: " ++ exe
                                               ++ String "010" "") p3);
                   gitLog := [set_cache_helper; add_this_helper exe] |})
        end
    end.
Proof.
  intros E. unfold run_init, initCommand. rewrite E.
  destruct (checkNetrcForDomains_run defaultAllowedDomains (start v)) as (p1 & N & D).
  exists p1. split; [exact D|]. cbv zeta.
  rewrite MS_bind_run, lift_run. cbn [process gitLog]. rewrite N. cbn [fst snd].
  rewrite MS_bind_run, warning_run. cbn [process gitLog].
  rewrite MS_bind_run, lift_run. unfold fmt_Println at 1, modify. cbn [fst snd process gitLog].
  rewrite MS_bind_run, runGitConfig_run. cbn [process gitLog app].
  fold set_cache_helper. fold (first_run os).
  destruct (child_err (first_run os)) as [e|]; [reflexivity|].
  rewrite MS_bind_run, lift_run. unfold fmt_Println at 1, modify. cbn [fst snd process gitLog].
  rewrite MS_bind_run, runGitConfig_run. cbn [process gitLog app].
  fold (add_this_helper exe). fold (second_run os exe).
  destruct (child_err (second_run os exe)) as [e|]; reflexivity.
Qed.

(** X11. [exports] ends in one of two ways, whatever the verbosity.
    When the path of the executable is found and its symbolic links
    resolve, it exits with status 0, standard error is empty, and
    standard output is the one line that sets GOAUTH to [git] and the
    directory of the resolved path.  Otherwise it exits with status 1,
    standard output is empty, and standard error is the line [Error:]
    with the step that failed and the error. *)
Theorem exportsCommand_outcome (v : Z) :
  let '(code, p) := run_exports os v in
  match os_Executable os with
  | Err e =>
      code = 1 /\ stdout p = ""
      /\ stderr p = "Error: failed to get executable path: " ++ e ++ String "010" ""
  | Ok exe =>
      match filepath_EvalSymlinks os exe with
      | Err e =>
          code = 1 /\ stdout p = ""
          /\ stderr p = "Error: failed to resolve symlinks: " ++ e ++ String "010" ""
      | Ok resolved =>
          code = 0 /\ stderr p = ""
          /\ stdout p = "export GOAUTH=" ++ String dquote "git " ++ filepath_Dir os resolved
                        ++ String dquote (String "010" "")
      end
  end.
Proof.
  unfold run_exports, exportsCommand, getExecutablePath.
  destruct (os_Executable os) as [exe|e].
  - destruct (filepath_EvalSymlinks os exe) as [resolved|e]; cbn; repeat split.
  - cbn. repeat split.
Qed.

(** X12. The [git] runs of [init] are made in order and stop at the
    first failure.  Without the path of the executable there is no
    run, the status is 1 and standard error is the line [Error:] with
    the error.  When the run that sets the cache helper fails it is
    the only run, the status is 1 and standard error ends with its
    error line.  Otherwise the run that adds this helper, by the path
    of the executable, follows; the status is 0 when it succeeds, and
    1 with its error line at the end of standard error when it
    fails.  All of this is so at every verbosity. *)
Theorem initCommand_git_runs (v : Z) :
  let '(code, s) := run_init os v in
  match getExecutablePath os with
  | Err e =>
      code = 1 /\ gitLog s = [] /\ stdout (process s) = ""
      /\ stderr (process s) = "Error: " ++ e ++ String "010" ""
  | Ok exe =>
      match child_err (first_run os) with
      | Some e =>
          code = 1 /\ gitLog s = [set_cache_helper]
          /\ EndsWith (stderr (process s))
               ("Error setting cache helper: " ++ e ++ String "010" "")
      | None =>
          gitLog s = [set_cache_helper; add_this_helper exe]
          /\ match child_err (second_run os exe) with
             | Some e =>
                 code = 1
                 /\ EndsWith (stderr (process s))
                      ("Error adding azure-cli helper: " ++ e ++ String "010" "")
             | None => code = 0
             end
      end
  end.
Proof.
  destruct (getExecutablePath os) as [exe|e] eqn:E.
  - destruct (run_init_configures exe v E) as (p1 & _ & R). cbv zeta in R. rewrite R.
    destruct (child_err (first_run os)) as [e|].
    + repeat split. cbn [process write_stderr stderr]. now eexists.
    + destruct (child_err (second_run os exe)) as [e|].
      * repeat split. cbn [process write_stderr stderr]. now eexists.
      * now split.
  - rewrite (run_init_failed e v E). repeat split.
Qed.

(** X13. What [init] writes to standard output: the line that
    announces the configuration, what the first [git] run wrote, and,
    when that run succeeded, the line for the cache helper and what
    the second run wrote, and, when that one succeeded too, the line
    for this helper with the path of the executable and the closing
    line.  Debug output and the [.netrc] warning are not part of
    it. *)
Theorem initCommand_stdout (exe : string) (v : Z) :
  getExecutablePath os = Ok exe ->
  stdout (process (run_init os v).2)
  = "Configuring git credential helpers..." ++ String "010" ""
    ++ child_stdout (first_run os)
    ++ match child_err (first_run os) with
       | Some _ => ""
       | None =>
           "✓ Added cache credential helper" ++ String "010" ""
           ++ child_stdout (second_run os exe)
           ++ match child_err (second_run os exe) with
              | Some _ => ""
              | None =>
                  "✓ Added azure-cli credential helper: " ++ exe ++ String "010" ""
                  ++ String "010" "Git credential configuration complete!"
                  ++ String "010" ""
              end
       end.
Proof.
  intros E. destruct (run_init_configures exe v E) as (p1 & D & R).
  cbv zeta in R. rewrite R. clear R.
  destruct D as (_ & _ & _ & _ & O & _).
  destruct (child_err (first_run os)) as [e|].
  - cbn [snd process]. fields. rewrite stdout_after_git. fields. rewrite O. cbn [start stdout].
    now rewrite string_app_nil_r, ?string_app_assoc.
  - destruct (child_err (second_run os exe)) as [e|]; cbn [snd process]; fields;
      rewrite stdout_after_git; fields; rewrite stdout_after_git; fields; rewrite O;
      cbn [start stdout]; now rewrite ?string_app_nil_r, ?string_app_assoc.
Qed.

(** X14. What [init] writes to standard error when it is not verbose:
    the warning about the hosts found in [.netrc], if any, then what
    the [git] runs wrote, then the error line of the run that failed,
    if one did. *)
Theorem initCommand_stderr (exe : string) (v : Z) :
  v < 1 ->
  getExecutablePath os = Ok exe ->
  stderr (process (run_init os v).2)
  = netrc_warning (netrc_found os defaultAllowedDomains)
    ++ child_stderr (first_run os)
    ++ match child_err (first_run os) with
       | Some e => "Error setting cache helper: " ++ e ++ String "010" ""
       | None =>
           child_stderr (second_run os exe)
           ++ match child_err (second_run os exe) with
              | Some e => "Error adding azure-cli helper: " ++ e ++ String "010" ""
              | None => ""
              end
       end.
Proof.
  intros V E. destruct (run_init_configures exe v E) as (p1 & D & R).
  cbv zeta in R. rewrite R. clear R.
  destruct D as (Vp & _ & _ & _ & _ & _ & Q). cbn [start verbosity] in Vp, Q.
  specialize (Q V). cbn [stderr] in Q.
  destruct (child_err (first_run os)) as [e|].
  - cbn [snd process]. fields. rewrite stderr_after_git by (fields; lia). fields.
    rewrite Q. now rewrite ?string_app_assoc.
  - destruct (child_err (second_run os exe)) as [e|]; cbn [snd process]; fields;
      (rewrite stderr_after_git by (fields; rewrite verbosity_after_git; fields; lia));
      fields; (rewrite stderr_after_git by (fields; lia)); fields; rewrite Q;
      now rewrite ?string_app_nil_r, ?string_app_assoc.
Qed.

End Init.

(** X15. The home directory and the files that open bear on the
    standard error of [init] only: on two systems that agree on the
    path of the executable, on its symbolic links and on [git], [init]
    ends with the same status, after the same [git] runs, and with the
    same standard output. *)
Theorem initCommand_netrc_stderr_only {U : Unicode} {F : UnicodeFields} (os os' : OS) (v : Z) :
  same_but_files os os' ->
  (run_init os' v).1 = (run_init os v).1
  /\ gitLog (run_init os' v).2 = gitLog (run_init os v).2
  /\ stdout (process (run_init os' v).2) = stdout (process (run_init os v).2).
Proof.
  intros (X & L & G).
  assert (P : getExecutablePath os' = getExecutablePath os).
  { unfold getExecutablePath. rewrite X. destruct (os_Executable os) as [exe|e]; [|reflexivity].
    now rewrite L. }
  assert (R1 : first_run os' = first_run os) by apply G.
  assert (R2 : forall exe, second_run os' exe = second_run os exe) by (intros exe; apply G).
  destruct (getExecutablePath os) as [exe|e] eqn:E.
  - destruct (run_init_configures os exe v E) as (p1 & D & R).
    destruct (run_init_configures os' exe v P) as (p1' & D' & R').
    cbv zeta in R, R'. rewrite R, R', R1, R2. clear R R'.
    destruct D as (_ & _ & _ & _ & O & _). destruct D' as (_ & _ & _ & _ & O' & _).
    destruct (child_err (first_run os)) as [e|].
    + repeat split. cbn [snd process]. fields. rewrite !stdout_after_git. fields.
      now rewrite O, O'.
    + destruct (child_err (second_run os exe)) as [e|]; (repeat split);
        cbn [snd process]; fields; rewrite !stdout_after_git; fields;
        rewrite !stdout_after_git; fields; now rewrite O, O'.
  - rewrite (run_init_failed os e v E), (run_init_failed os' e v P). repeat split.
Qed.

Lemma initCommand_stdout_netrc :
  stdout (process (run_init (U := no_unicode) (F := no_unicode_fields) with_netrc 0).2)
  = "Configuring git credential helpers..." ++ String "010" ""
    ++ "✓ Added cache credential helper" ++ String "010" ""
    ++ "✓ Added azure-cli credential helper: /usr/local/bin/git-credential-azure-cli"
    ++ String "010" ""
    ++ String "010" "Git credential configuration complete!" ++ String "010" "".
Proof.
  apply (initCommand_stdout (U := no_unicode) (F := no_unicode_fields) with_netrc
           "/usr/local/bin/git-credential-azure-cli" 0).
  reflexivity.
Defined.

Lemma initCommand_stderr_netrc :
  stderr (process (run_init (U := no_unicode) (F := no_unicode_fields) with_netrc 0).2)
  = netrc_warning ["dev.azure.com"].
Proof.
  apply (initCommand_stderr (U := no_unicode) (F := no_unicode_fields) with_netrc
           "/usr/local/bin/git-credential-azure-cli" 0).
  - lia.
  - reflexivity.
Defined.

Lemma initCommand_netrc_stderr_only_no_home :
  (run_init (U := no_unicode) (F := no_unicode_fields) without_home 0).1
  = (run_init (U := no_unicode) (F := no_unicode_fields) with_netrc 0).1
  /\ gitLog (run_init (U := no_unicode) (F := no_unicode_fields) without_home 0).2
     = gitLog (run_init (U := no_unicode) (F := no_unicode_fields) with_netrc 0).2
  /\ stdout (process (run_init (U := no_unicode) (F := no_unicode_fields) without_home 0).2)
     = stdout (process (run_init (U := no_unicode) (F := no_unicode_fields) with_netrc 0).2).
Proof.
  apply (initCommand_netrc_stderr_only (U := no_unicode) (F := no_unicode_fields)
           with_netrc without_home 0).
  repeat split.
Defined.

Example init_without_home :
  let '(code, s) := run_init (U := no_unicode) (F := no_unicode_fields) without_home 1 in
  code = 0
  /\ gitLog s = [set_cache_helper;
                 add_this_helper "/usr/local/bin/git-credential-azure-cli"]
  /\ stderr (process s)
     = "[DEBUG] Failed to get home directory: $HOME is not defined" ++ String "010" ""
       ++ "[DEBUG] Running: git config --global --replace-all credential.helper cache"
       ++ String "010" ""
       ++ "[DEBUG] Running: git config --global --add credential.helper "
       ++ "/usr/local/bin/git-credential-azure-cli" ++ String "010" "".
Proof. vm_compute. auto. Qed.

Example exports_installed :
  run_exports with_netrc 0
  = (0, write_stdout ("export GOAUTH=" ++ String dquote "git /usr/local/bin"
                      ++ String dquote (String "010" "")) (start 0)).
Proof. reflexivity. Qed.
